(** * caprev: the sensor link layer

    A shallow embedding of the wire codec ([Protocol.cpp]), the sensor
    history ([Sensor.cpp]), the per-sensor socket client ([TCPClient.cpp])
    and the window's client/sensor bookkeeping ([MainFrame.cpp]), followed
    by the properties checked against the written specification.

    Conventions.
    - A byte is [Byte.byte]; [std::vector<uint8_t>] and [std::string] are
      [list byte]; [size_t] offsets and lengths are [nat].
    - [UnityMessage::Type] is a scoped enumeration over [int]: it is
      modelled by [Z] with the five enumerators as constants, so that the
      value [static_cast<Type>(b)] exists for every byte [b].
    - A [float] is its four-byte object representation (what [memcpy] and
      [reinterpret_cast<const uint8_t*>] see).  The three comparisons the
      program performs on floats are decided on the IEEE-754 binary32 bit
      pattern, read in the byte order of a little-endian host.
    - A function that may throw returns [result]; [Undefined] stands for
      what the language leaves undefined: a read outside the vector (an
      unchecked [operator[]] past the last element, an iterator range
      that ends past [end()]) and signed arithmetic that overflows. *)

From Stdlib Require Import String.
From Stdlib Require Import List Arith ZArith Lia Bool.
From Stdlib.Strings Require Byte.
Import ListNotations.

Abbreviation byte := Byte.byte.

(** ** Exceptions *)

(** [class ProtocolError : public std::runtime_error]: the payload is the
    [what()] string. *)
Inductive ProtocolError : Type :=
| mkProtocolError (what : string).

Definition what (e : ProtocolError) : string :=
  match e with mkProtocolError s => s end.

Inductive result (A : Type) : Type :=
| Ok (a : A)
| Throw (e : ProtocolError)
| Undefined.

Arguments Ok {A} a.
Arguments Throw {A} e.
Arguments Undefined {A}.

Definition bind {A B : Type} (r : result A) (k : A -> result B) : result B :=
  match r with
  | Ok a => k a
  | Throw e => Throw e
  | Undefined => Undefined
  end.

(** [try { body } catch (const ProtocolError& e) { handler }] *)
Definition try_catch {A : Type} (body : result A)
  (handler : ProtocolError -> result A) : result A :=
  match body with
  | Ok a => Ok a
  | Throw e => handler e
  | Undefined => Undefined
  end.

Declare Scope result_scope.
Delimit Scope result_scope with result.
Notation "x <- r ;; k" := (bind r (fun x => k))
  (at level 61, r at next level, right associativity) : result_scope.
Open Scope result_scope.

(** ** Fixed-width conversions *)

(** [static_cast<uint8_t>(n)] for an unsigned [n]. *)
Definition uint8_of_nat (n : nat) : byte :=
  match Byte.of_nat (n mod 256) with
  | Some b => b
  | None => Byte.x00
  end.

(** [static_cast<uint8_t>(z)] for a signed [z]: reduction modulo 2^8. *)
Definition uint8_of_Z (z : Z) : byte :=
  uint8_of_nat (Z.to_nat (z mod 256)).

Definition Z_of_byte (b : byte) : Z := Z.of_nat (Byte.to_nat b).

(** ** Floats *)

(** Object representation of a [float], lowest address first. *)
Record float : Type := mkFloat { fb0 : byte; fb1 : byte; fb2 : byte; fb3 : byte }.

Definition float_bytes (f : float) : list byte :=
  [fb0 f; fb1 f; fb2 f; fb3 f].

(** The binary32 bit pattern, for a little-endian host. *)
Definition float_bits (f : float) : Z :=
  Z_of_byte (fb0 f) + 256 * Z_of_byte (fb1 f)
  + 65536 * Z_of_byte (fb2 f) + 16777216 * Z_of_byte (fb3 f).

Definition float_of_bits (z : Z) : float :=
  mkFloat (uint8_of_Z z) (uint8_of_Z (z / 256))
          (uint8_of_Z (z / 65536)) (uint8_of_Z (z / 16777216)).

(** [f > 0]: sign bit clear, not zero, not a NaN (positive finite values
    and +infinity are the patterns 0x00000001 .. 0x7F800000). *)
Definition float_gt_zero (f : float) : bool :=
  (0 <? float_bits f)%Z && (float_bits f <=? 0x7F800000)%Z.

(** [f == c] for a constant [c] that is neither a zero nor a NaN: such a
    value has exactly one bit pattern. *)
Definition float_eq_const (f c : float) : bool :=
  (float_bits f =? float_bits c)%Z.

Definition float_neg_one : float := float_of_bits 0xBF800000.     (* -1.0f   *)
Definition float_one : float := float_of_bits 0x3F800000.         (*  1.0f   *)
Definition float_five : float := float_of_bits 0x40A00000.        (*  5.0f   *)
Definition float_thousand : float := float_of_bits 0x447A0000.    (*  1000.0f *)
Definition float_zero : float := float_of_bits 0.                 (*  0.0f   *)

(** ** Protocol.h / Protocol.cpp *)

Module UnityMessage.

(** [enum class Type { CONNECT, PIN_REQUEST, PIN_RESPONSE, SENSOR_DATA,
    ERROR_STATE }] *)
Definition Type_ := Z.
Definition CONNECT : Type_ := 0%Z.
Definition PIN_REQUEST : Type_ := 1%Z.
Definition PIN_RESPONSE : Type_ := 2%Z.
Definition SENSOR_DATA : Type_ := 3%Z.
Definition ERROR_STATE : Type_ := 4%Z.

Record t : Type := mk {
  type : Type_;
  pin : list byte;
  value : float;
  error : list byte
}.

End UnityMessage.

Abbreviation UnityMessage := UnityMessage.t.
Import UnityMessage.

Module Protocol.

Definition PROTOCOL_VERSION : nat := 1.
Definition MAX_MESSAGE_SIZE : nat := 1024.

Definition serialize (msg : UnityMessage) : list byte :=
  (* version *)
  [uint8_of_nat PROTOCOL_VERSION]
  (* type *)
  ++ [uint8_of_Z (type msg)]
  (* pin length and data *)
  ++ [uint8_of_nat (length (pin msg))]
  ++ pin msg
  (* value *)
  ++ float_bytes (value msg)
  (* error if present *)
  ++ (if (type msg =? ERROR_STATE)%Z
      then uint8_of_nat (length (error msg)) :: error msg
      else []).

(** [data[i]]: unchecked. *)
Definition at_ (data : list byte) (i : nat) : result byte :=
  match nth_error data i with
  | Some b => Ok b
  | None => Undefined
  end.

(** [assign(data.begin() + lo, data.begin() + lo + n)]: the copy of the
    range, which is unchecked like [operator[]]; it lies in the vector
    when it ends at [data.end()] or before. *)
Definition range (data : list byte) (lo n : nat) : result (list byte) :=
  if lo + n <=? length data
  then Ok (firstn n (skipn lo data))
  else Undefined.

(** [std::memcpy(&value, &data[offset], sizeof(float))] *)
Definition memcpy_float (data : list byte) (offset : nat) : result float :=
  b0 <- at_ data offset ;;
  b1 <- at_ data (offset + 1) ;;
  b2 <- at_ data (offset + 2) ;;
  b3 <- at_ data (offset + 3) ;;
  Ok (mkFloat b0 b1 b2 b3).

Definition too_short := mkProtocolError "message too short".
Definition version_mismatch := mkProtocolError "protocol version mismatch".
Definition invalid_pin_length := mkProtocolError "invalid pin length".
Definition truncated_at_value := mkProtocolError "message truncated at value".

Definition deserialize (data : list byte) : result UnityMessage :=
  if length data <? 3 then Throw too_short else
  let offset := 0 in
  (* verify protocol version *)
  v <- at_ data offset ;;
  let offset := offset + 1 in
  if negb (Byte.to_nat v =? PROTOCOL_VERSION) then Throw version_mismatch else
  (* read type *)
  ty <- at_ data offset ;;
  let offset := offset + 1 in
  let msg_type := Z_of_byte ty in
  (* read pin *)
  pl <- at_ data offset ;;
  let offset := offset + 1 in
  let pinLen := Byte.to_nat pl in
  if length data <? offset + pinLen then Throw invalid_pin_length else
  msg_pin <- range data offset pinLen ;;
  let offset := offset + pinLen in
  (* read value *)
  if length data <? offset + 4 then Throw truncated_at_value else
  msg_value <- memcpy_float data offset ;;
  let offset := offset + 4 in
  (* read error if present *)
  msg_error <-
    (if (msg_type =? ERROR_STATE)%Z && (offset <? length data) then
       el <- at_ data offset ;;
       let offset := offset + 1 in
       let errorLen := Byte.to_nat el in
       if offset + errorLen <=? length data
       then range data offset errorLen
       else Ok []
     else Ok []) ;;
  Ok (UnityMessage.mk msg_type msg_pin msg_value msg_error).

End Protocol.

(** ** Sensor.h / Sensor.cpp *)

Module Sensor.

Definition MAX_HISTORY : nat := 100.

(** The sensor's own [m_client] is created by the constructor and only
    used by [Sensor::connect] and [Sensor::disconnect], which the window
    never calls; it is left out of the record. *)
Record t : Type := mk {
  m_pin : list byte;
  m_connected : bool;
  m_lastValue : float;
  m_history : list float          (* std::deque<float>, front first *)
}.

(** [Sensor::Sensor(const std::string& pin)] *)
Definition new (pin : list byte) : t := mk pin false float_zero [].

Definition getPin (s : t) : list byte := m_pin s.
Definition isConnected (s : t) : bool := m_connected s.
Definition getLastValue (s : t) : float := m_lastValue s.
Definition getHistory (s : t) : list float := m_history s.

Definition setConnected (state : bool) (s : t) : t :=
  mk (m_pin s) state (m_lastValue s) (m_history s).

Definition clearValue (s : t) : t :=
  mk (m_pin s) false float_zero (m_history s).

(** [pop_front] is only reached on a history of at least [MAX_HISTORY]
    elements, hence non-empty. *)
Definition updateValue (value : float) (s : t) : t :=
  let h := if MAX_HISTORY <=? length (m_history s)
           then tl (m_history s)
           else m_history s in
  mk (m_pin s) (m_connected s) value (h ++ [value]).

End Sensor.

(** ** TCPClient.h / TCPClient.cpp *)

Module TCPClient.

(** What the socket library answers to one [Write]: [Error()] and
    [LastCount()]. *)
Record WriteOutcome : Type := mkWrite { wr_error : bool; wr_count : nat }.

(** What the environment contributes to one [sendMessage]: the value of
    the message's [value] member, which neither caller initialises, and
    the outcome of the two writes. *)
Record SendEnv : Type := mkSendEnv {
  indeterminate_value : float;
  size_write : WriteOutcome;
  data_write : WriteOutcome
}.

(** A socket notification together with what the handler will find on
    the socket: for [wxSOCKET_INPUT] the contents of the vector [data]
    after the two [Read] calls (its length is the size prefix read). *)
Inductive wxSocketEvent : Type :=
| wxSOCKET_CONNECTION (env : SendEnv)
| wxSOCKET_INPUT (data : list byte)
| wxSOCKET_LOST.

Section WithOwner.

(** The state of whoever installed the data callback. *)
Context {W : Type}.

(** [std::function<void(float)>] *)
Definition DataCallback : Type := float -> W -> W.

Record t : Type := mk {
  sock_connected : bool;          (* m_client->IsConnected() *)
  sock_out : list byte;           (* bytes m_client->Write has taken *)
  m_connected : bool;
  m_handshakeComplete : bool;
  m_onData : option DataCallback
}.

Definition set_sock_connected (b : bool) (c : t) : t :=
  mk b (sock_out c) (m_connected c) (m_handshakeComplete c) (m_onData c).
Definition set_m_connected (b : bool) (c : t) : t :=
  mk (sock_connected c) (sock_out c) b (m_handshakeComplete c) (m_onData c).
Definition set_m_handshakeComplete (b : bool) (c : t) : t :=
  mk (sock_connected c) (sock_out c) (m_connected c) b (m_onData c).

(** The constructor initialises [m_connected] only; the initial value
    of [m_handshakeComplete] is whatever the storage holds. *)
Definition new (indeterminate_flag : bool) : t :=
  mk false [] false indeterminate_flag None.

Definition isConnected (c : t) : bool := m_connected c.

Definition setDataCallback (callback : DataCallback) (c : t) : t :=
  mk (sock_connected c) (sock_out c) (m_connected c)
     (m_handshakeComplete c) (Some callback).

(** [if (m_onData) m_onData(v);] *)
Definition call_onData (c : t) (v : float) (w : W) : W :=
  match m_onData c with
  | Some callback => callback v w
  | None => w
  end.

(** [m_client->Write(buf, n)]: the socket takes the first
    [LastCount()] bytes. *)
Definition Write (buf : list byte) (o : WriteOutcome) (c : t) : t :=
  mk (sock_connected c) (sock_out c ++ firstn (wr_count o) buf)
     (m_connected c) (m_handshakeComplete c) (m_onData c).

(** The object representation of a [uint32_t] on a little-endian host. *)
Definition uint32_bytes (n : nat) : list byte :=
  let z := (Z.of_nat n mod 4294967296)%Z in
  [uint8_of_Z z; uint8_of_Z (z / 256);
   uint8_of_Z (z / 65536); uint8_of_Z (z / 16777216)].

(** [Protocol::serialize] has no throwing path, so the [catch] of
    [sendMessage] has nothing to handle. *)
Definition sendMessage (msg : UnityMessage) (env : SendEnv) (c : t)
  : bool * t :=
  if negb (sock_connected c) then (false, c) else
  let data := Protocol.serialize msg in
  (* write message size *)
  let c := Write (uint32_bytes (length data)) (size_write env) c in
  if wr_error (size_write env) || negb (wr_count (size_write env) =? 4)
  then (false, c) else
  (* write message data *)
  let c := Write data (data_write env) c in
  if wr_error (data_write env)
     || negb (wr_count (data_write env) =? length data)
  then (false, c) else
  (true, c).

Definition sendPinRequest (pin : list byte) (env : SendEnv) (c : t)
  : bool * t :=
  if negb (m_connected c) || negb (m_handshakeComplete c)
  then (false, c) else
  let msg := UnityMessage.mk PIN_REQUEST pin (indeterminate_value env) [] in
  sendMessage msg env c.

(** [m_client->Close()] leaves the socket not connected. *)
Definition disconnect (c : t) : t :=
  if m_connected c
  then set_m_connected false (set_sock_connected false c)
  else c.

(** [m_client->Connect(addr, false)] starts a non-blocking attempt; the
    socket is not connected until the library reports it. *)
Definition connect (c : t) : bool * t :=
  let c := if sock_connected c then disconnect c else c in
  (true, set_sock_connected false c).

(** The body of the [switch] on the decoded message. *)
Definition dispatch (msg : UnityMessage) (c : t) (w : W) : t * W :=
  if (type msg =? ERROR_STATE)%Z then
    (* signal error to prevent sensor creation *)
    (c, call_onData c float_neg_one w)
  else if (type msg =? PIN_RESPONSE)%Z then
    if negb (m_handshakeComplete c) then
      (* initial handshake response *)
      (set_m_handshakeComplete true (set_m_connected true c), w)
    else
      (* actual PIN validation response *)
      if float_gt_zero (value msg)
      then (c, call_onData c float_thousand w)   (* signal success *)
      else (c, call_onData c float_neg_one w)    (* signal error *)
  else if (type msg =? SENSOR_DATA)%Z then
    if m_connected c && m_handshakeComplete c
    then (c, call_onData c (value msg) w)
    else (c, w)
  else (c, w).

(** [Protocol::deserialize] is the first statement that can throw and
    nothing is modified before it, so the handler resumes from the
    state at entry.  The handler only logs: its [disconnect()] is
    commented out. *)
Definition handleIncomingData (data : list byte) (c : t) (w : W)
  : result (t * W) :=
  try_catch
    (msg <- Protocol.deserialize data ;;
     Ok (dispatch msg c w))
    (fun e => Ok (c, w)).

Definition onSocketEvent (event : wxSocketEvent) (c : t) (w : W)
  : result (t * W) :=
  match event with
  | wxSOCKET_CONNECTION env =>
      if sock_connected c then
        let msg := UnityMessage.mk CONNECT [] (indeterminate_value env) [] in
        (* Don't set m_connected yet, wait for response *)
        Ok (snd (sendMessage msg env c), w)
      else Ok (c, w)
  | wxSOCKET_INPUT data =>
      if sock_connected c then
        try_catch
          (cw <- handleIncomingData data c w ;;
           if negb (m_handshakeComplete (fst cw))
           then Ok (set_m_handshakeComplete true
                      (set_m_connected true (fst cw)), snd cw)
           else Ok cw)
          (fun e => Ok (disconnect c, w))
      else Ok (c, w)
  | wxSOCKET_LOST =>
      Ok (set_m_handshakeComplete false (set_m_connected false c), w)
  end.

(** The socket library updates its own connected flag before it posts
    the notification: set on an established connection, cleared on a
    lost one. *)
Definition notify (event : wxSocketEvent) (c : t) (w : W)
  : result (t * W) :=
  match event with
  | wxSOCKET_CONNECTION _ => onSocketEvent event (set_sock_connected true c) w
  | wxSOCKET_INPUT _ => onSocketEvent event c w
  | wxSOCKET_LOST => onSocketEvent event (set_sock_connected false c) w
  end.

(** One [wxTheApp->Yield()]: the notifications pending for this
    socket are handled in order. *)
Fixpoint yield (pending : list wxSocketEvent) (c : t) (w : W)
  : result (t * W) :=
  match pending with
  | [] => Ok (c, w)
  | event :: rest =>
      cw <- notify event c w ;;
      yield rest (fst cw) (snd cw)
  end.

(** The polling loop: one element of [rounds] per iteration that the
    timeout leaves room for. *)
Fixpoint wait_loop (rounds : list (list wxSocketEvent)) (c : t) (w : W)
  : result (t * W) :=
  if m_handshakeComplete c then Ok (c, w) else
  match rounds with
  | [] => Ok (c, w)
  | pending :: rest =>
      cw <- yield pending c w ;;
      wait_loop rest (fst cw) (snd cw)
  end.

Definition waitForConnection (rounds : list (list wxSocketEvent))
  (c : t) (w : W) : result (bool * (t * W)) :=
  (* reset state *)
  let c := set_m_handshakeComplete false c in
  cw <- wait_loop rounds c w ;;
  Ok (m_handshakeComplete (fst cw), cw).

End WithOwner.

Arguments t : clear implicits.
Arguments DataCallback : clear implicits.

End TCPClient.

(** ** MainFrame.h / MainFrame.cpp *)

Fixpoint bytes_eqb (a b : list byte) : bool :=
  match a, b with
  | [], [] => true
  | x :: a', y :: b' => Byte.eqb x y && bytes_eqb a' b'
  | _, _ => false
  end.

Module MainFrame.

(** A queued [wxThreadEvent]: [GetString()] and [GetPayload<float>()]. *)
Definition ThreadEvent : Type := (list byte * float)%type.
Definition EventQueue : Type := list ThreadEvent.

Abbreviation Client := (TCPClient.t EventQueue).

(** Layout, labels, the list box and the log file are left out; the
    chart is kept as the sequence of points handed to it. *)
Record t : Type := mk {
  m_sensors : list Sensor.t;
  m_clients : list Client;
  m_selectedSensor : Z;
  m_isRecording : bool;
  m_graphPanel : list float;
  dialogs : list string;            (* texts shown by wxMessageBox *)
  events : EventQueue               (* wxQueueEvent(this, evt) *)
}.

(** The constructor initialises [m_selectedSensor] only; the vectors
    start empty and [m_isRecording] holds whatever the storage holds. *)
Definition new (indeterminate_recording : bool) : t :=
  mk [] [] (-1)%Z indeterminate_recording [] [] [].

Definition with_sensors (l : list Sensor.t) (f : t) : t :=
  mk l (m_clients f) (m_selectedSensor f) (m_isRecording f)
     (m_graphPanel f) (dialogs f) (events f).
Definition with_clients (l : list Client) (f : t) : t :=
  mk (m_sensors f) l (m_selectedSensor f) (m_isRecording f)
     (m_graphPanel f) (dialogs f) (events f).
Definition with_events (q : EventQueue) (f : t) : t :=
  mk (m_sensors f) (m_clients f) (m_selectedSensor f) (m_isRecording f)
     (m_graphPanel f) (dialogs f) q.
Definition wxMessageBox (text : string) (f : t) : t :=
  mk (m_sensors f) (m_clients f) (m_selectedSensor f) (m_isRecording f)
     (m_graphPanel f) (dialogs f ++ [text]) (events f).
Definition addPoint (value : float) (f : t) : t :=
  mk (m_sensors f) (m_clients f) (m_selectedSensor f) (m_isRecording f)
     (m_graphPanel f ++ [value]) (dialogs f) (events f).
Definition stopRecording (f : t) : t :=
  mk (m_sensors f) (m_clients f) (m_selectedSensor f) false
     (m_graphPanel f) (dialogs f) (events f).

(** The predicate of the three [std::find_if] calls. *)
Definition has_pin (pin : list byte) (sensor : Sensor.t) : bool :=
  bytes_eqb (Sensor.getPin sensor) pin.

(** [updateValue(value)] on the sensor [std::find_if] returns: the first
    one with that pin. *)
Fixpoint update_first (pin : list byte) (value : float)
  (sensors : list Sensor.t) : list Sensor.t :=
  match sensors with
  | [] => []
  | s :: rest =>
      if has_pin pin s then Sensor.updateValue value s :: rest
      else s :: update_first pin value rest
  end.

(** The lambda installed by [onConnect]: it captures [pinStr] and
    queues a thread event for the frame. *)
Definition data_callback (pinStr : list byte) : TCPClient.DataCallback EventQueue :=
  fun value queue => queue ++ [(pinStr, value)].

(** What the environment contributes to one [onConnect]: the initial
    content of the new client's uninitialised flag, the notifications
    its socket receives during each round of the wait, and the outcome
    of sending the pin request. *)
Record ConnectEnv : Type := mkConnectEnv {
  indeterminate_flag : bool;
  rounds : list (list TCPClient.wxSocketEvent);
  pin_send : TCPClient.SendEnv
}.

(** [pin] is the text of the input field after [Trim()].  When the
    function returns without storing the client, the client is
    destroyed with the local [unique_ptr].  Nothing in the body throws
    before the frame is modified, so the [catch] resumes from the
    state at entry.  During the wait only the notifications of the new
    client's socket are dispatched here: this is [onConnect] while the
    application has nothing else pending.  [App.onConnect] below is the
    function with everything a [Yield] can dispatch. *)
Definition onConnect (pin : list byte) (env : ConnectEnv) (f : t)
  : result t :=
  try_catch
    (if bytes_eqb pin [] then Ok (wxMessageBox "Please enter a PIN" f) else
     let pinStr := pin in
     (* check if sensor already exists *)
     match find (has_pin pinStr) (m_sensors f) with
     | Some _ => Ok (wxMessageBox "Sensor already connected" f)
     | None =>
         (* create new client for this sensor *)
         let client := TCPClient.new (indeterminate_flag env) in
         let client := TCPClient.setDataCallback (data_callback pinStr) client in
         let (connected, client) := TCPClient.connect client in
         waited <- (if connected
                    then TCPClient.waitForConnection (rounds env) client (events f)
                    else Ok (false, (client, events f))) ;;
         let client := fst (snd waited) in
         let f := with_events (snd (snd waited)) f in
         if negb connected || negb (fst waited)
         then Ok (wxMessageBox "Failed to connect to Unity" f) else
         let (sent, client) := TCPClient.sendPinRequest pinStr (pin_send env) client in
         if negb sent
         then Ok (wxMessageBox "Failed to connect to sensor" f) else
         Ok (with_clients (m_clients f ++ [client]) f)
     end)
    (fun e => Ok (wxMessageBox (what e) f)).

Definition onSensorData (value : float) (pin : list byte) (f : t) : t :=
  match find (has_pin pin) (m_sensors f) with
  | Some _ =>
      let f' := with_sensors (update_first pin value (m_sensors f)) f in
      let selected :=
        match nth_error (m_sensors f') (Z.to_nat (m_selectedSensor f')) with
        | Some s => (0 <=? m_selectedSensor f')%Z && has_pin pin s
        | None => false
        end in
      if selected && m_isRecording f' then addPoint value f' else f'
  | None => f
  end.

Definition onSensorUpdate (evt : ThreadEvent) (f : t) : t :=
  let pin := fst evt in
  let value := snd evt in
  if float_eq_const value float_neg_one then    (* Error state *)
    wxMessageBox "Invalid PIN" f
  else if float_eq_const value float_thousand then   (* PIN_RESPONSE success *)
    match find (has_pin pin) (m_sensors f) with
    | None =>
        let sensor := Sensor.setConnected true (Sensor.new pin) in
        with_sensors (m_sensors f ++ [sensor]) f
    | Some _ => f
    end
  else onSensorData value pin f.

Definition checkServerConnection (f : t) : t :=
  with_clients (filter TCPClient.isConnected (m_clients f)) f.

Definition isServerConnected (f : t) : bool :=
  existsb TCPClient.isConnected (m_clients f).

Definition onTimer (f : t) : t :=
  let f := checkServerConnection f in
  if negb (isServerConnected f) then stopRecording f else f.

(** The event loop hands the oldest queued thread event to
    [onSensorUpdate]. *)
Definition processThreadEvent (f : t) : t :=
  match events f with
  | [] => f
  | evt :: rest => onSensorUpdate evt (with_events rest f)
  end.

Fixpoint processThreadEvents (n : nat) (f : t) : t :=
  match n with
  | O => f
  | S n' => processThreadEvents n' (processThreadEvent f)
  end.

(** Replace the [i]-th client. *)
Fixpoint set_nth (i : nat) (c : Client) (l : list Client) : list Client :=
  match l, i with
  | [], _ => []
  | _ :: rest, O => c :: rest
  | x :: rest, S i' => x :: set_nth i' c rest
  end.

(** A socket notification reaches the handler of the client that owns
    the socket; its data callback acts on the frame's event queue. *)
Definition socketEvent (i : nat) (event : TCPClient.wxSocketEvent) (f : t)
  : result t :=
  match nth_error (m_clients f) i with
  | None => Ok f
  | Some c =>
      cw <- TCPClient.notify event c (events f) ;;
      Ok (with_events (snd cw) (with_clients (set_nth i (fst cw) (m_clients f)) f))
  end.

End MainFrame.

(** ** The byte stream under the frames *)

(** Both ends read a frame with one [Read] of [sizeof(uint32_t)] bytes
    into an uninitialised [uint32_t] and one [Read] of that many bytes into
    a zero-initialised vector, and look at neither [LastCount()] nor
    [Error()].  A [Read] takes the bytes the stream holds, up to the
    number asked for. *)
Module Wire.

(** The value of a [uint32_t] whose object representation is [b], on a
    little-endian host. *)
Definition uint32_of_bytes (b : list byte) : nat :=
  match b with
  | [b0; b1; b2; b3] =>
      Z.to_nat (Z_of_byte b0 + 256 * Z_of_byte b1
                + 65536 * Z_of_byte b2 + 16777216 * Z_of_byte b3)
  | _ => 0
  end.

(** [Read(buf, n)]: the bytes copied to the front of [buf], and what the
    stream holds afterwards. *)
Definition Read (n : nat) (stream : list byte) : list byte * list byte :=
  (firstn n stream, skipn n stream).

(** [uint32_t msgSize; Read(&msgSize, sizeof(msgSize));] where
    [indeterminate] is what the four bytes of [msgSize] held before. *)
Definition read_size (indeterminate : list byte) (stream : list byte)
  : nat * list byte :=
  let (got, rest) := Read 4 stream in
  (uint32_of_bytes (got ++ skipn (length got) (firstn 4 indeterminate)), rest).

(** [std::vector<uint8_t> data(msgSize); Read(data.data(), msgSize);] *)
Definition read_vector (msgSize : nat) (stream : list byte)
  : list byte * list byte :=
  let (got, rest) := Read msgSize stream in
  (got ++ repeat Byte.x00 (msgSize - length got), rest).

(** The two reads of [TCPClient::handleIncomingData]: the vector handed
    to [Protocol::deserialize], and the rest of the stream. *)
Definition receive (indeterminate : list byte) (stream : list byte)
  : list byte * list byte :=
  let (msgSize, rest) := read_size indeterminate stream in
  read_vector msgSize rest.

End Wire.

(** ** test/TestServer.cpp *)

Module TestServer.

(** The accepted client socket: the bytes it holds for reading and the
    bytes written to it. *)
Record t : Type := mk {
  sock_in : list byte;
  sock_out : list byte
}.

(** [client->Write(buf, n)]; the result is not looked at. *)
Definition Write (buf : list byte) (o : TCPClient.WriteOutcome) (c : t) : t :=
  mk (sock_in c) (sock_out c ++ firstn (TCPClient.wr_count o) buf).

(** [processClientMessage] for a non-null client.  [indeterminate] is
    the initial content of [msgSize]; [w1] and [w2] are the outcomes of
    the two writes of the reply. *)
Definition processClientMessage (indeterminate : list byte)
  (w1 w2 : TCPClient.WriteOutcome) (c : t) : result t :=
  let (msgSize, rest) := Wire.read_size indeterminate (sock_in c) in
  let c := mk rest (sock_out c) in
  if Protocol.MAX_MESSAGE_SIZE <? msgSize then Ok c   (* Message too large *)
  else
    let (data, rest) := Wire.read_vector msgSize (sock_in c) in
    let c := mk rest (sock_out c) in
    try_catch
      (msg <- Protocol.deserialize data ;;
       if (type msg =? CONNECT)%Z then
         let response := UnityMessage.mk PIN_RESPONSE [] float_one [] in
         let responseData := Protocol.serialize response in
         let c := Write (TCPClient.uint32_bytes (length responseData)) w1 c in
         let c := Write responseData w2 c in
         Ok c
       else Ok c)
      (fun e => Ok c).

End TestServer.

(** ** Sensor.cpp: the sensor with its own client *)

(** A [Sensor] owns a [TCPClient] whose data callback is the sensor's
    [updateValue]; the client's owner state is the sensor record. *)
Module SensorLink.

Record t : Type := mk {
  sensor : Sensor.t;
  m_client : TCPClient.t Sensor.t
}.

(** [Sensor::Sensor(const std::string& pin)] with the client it makes. *)
Definition new (pin : list byte) (indeterminate_flag : bool) : t :=
  mk (Sensor.new pin)
     (TCPClient.setDataCallback (fun value s => Sensor.updateValue value s)
        (TCPClient.new indeterminate_flag)).

(** [Sensor::connect] *)
Definition connect (env : TCPClient.SendEnv) (l : t) : bool * t :=
  let (connected, client) := TCPClient.connect (m_client l) in
  if negb connected then (false, mk (sensor l) client) else
  let (sent, client) :=
    TCPClient.sendPinRequest (Sensor.m_pin (sensor l)) env client in
  if negb sent then (false, mk (sensor l) client) else
  (true, mk (Sensor.setConnected true (sensor l)) client).

(** [Sensor::disconnect] *)
Definition disconnect (l : t) : t :=
  mk (sensor l) (TCPClient.disconnect (m_client l)).

(** A notification for the sensor's client. *)
Definition notify (event : TCPClient.wxSocketEvent) (l : t) : result t :=
  cw <- TCPClient.notify event (m_client l) (sensor l) ;;
  Ok (mk (snd cw) (fst cw)).

End SensorLink.

(** ** MainFrame.cpp: the remaining handlers *)

Module MainFrameEvents.

Definition with_recording (b : bool) (f : MainFrame.t) : MainFrame.t :=
  MainFrame.mk (MainFrame.m_sensors f) (MainFrame.m_clients f)
    (MainFrame.m_selectedSensor f) b (MainFrame.m_graphPanel f)
    (MainFrame.dialogs f) (MainFrame.events f).

Definition with_selected (sel : Z) (f : MainFrame.t) : MainFrame.t :=
  MainFrame.mk (MainFrame.m_sensors f) (MainFrame.m_clients f)
    sel (MainFrame.m_isRecording f) (MainFrame.m_graphPanel f)
    (MainFrame.dialogs f) (MainFrame.events f).

(** [m_graphPanel->clear()] *)
Definition clearGraph (f : MainFrame.t) : MainFrame.t :=
  MainFrame.mk (MainFrame.m_sensors f) (MainFrame.m_clients f)
    (MainFrame.m_selectedSensor f) (MainFrame.m_isRecording f) []
    (MainFrame.dialogs f) (MainFrame.events f).

(** [onRecordToggle]; [pressed] is [m_recordBtn->GetValue()].  In
    [m_selectedSensor >= m_sensors.size()] the index is converted to
    [size_t]; it is not negative there. *)
Definition onRecordToggle (pressed : bool) (f : MainFrame.t) : MainFrame.t :=
  let f := with_recording pressed f in
  if MainFrame.m_isRecording f then
    if (MainFrame.m_selectedSensor f <? 0)%Z
       || (Z.of_nat (length (MainFrame.m_sensors f))
           <=? MainFrame.m_selectedSensor f)%Z
    then with_recording false
           (MainFrame.wxMessageBox "Please select a sensor first" f)
    else clearGraph f
  else f.

(** [onSensorSelected]; [selection] is [m_sensorList->GetSelection()]. *)
Definition onSensorSelected (selection : Z) (f : MainFrame.t) : MainFrame.t :=
  with_selected selection f.

(** What the event loop can hand to the frame and to its clients. *)
Inductive Event : Type :=
| Connect (pin : list byte) (env : MainFrame.ConnectEnv)
| Socket (i : nat) (event : TCPClient.wxSocketEvent)
| Thread
| Timer
| RecordToggle (pressed : bool)
| SensorSelected (selection : Z).

Definition handle (event : Event) (f : MainFrame.t) : result MainFrame.t :=
  match event with
  | Connect pin env => MainFrame.onConnect pin env f
  | Socket i e => MainFrame.socketEvent i e f
  | Thread => Ok (MainFrame.processThreadEvent f)
  | Timer => Ok (MainFrame.onTimer f)
  | RecordToggle pressed => Ok (onRecordToggle pressed f)
  | SensorSelected selection => Ok (onSensorSelected selection f)
  end.

Fixpoint run (events : list Event) (f : MainFrame.t) : result MainFrame.t :=
  match events with
  | [] => Ok f
  | event :: rest => f' <- handle event f ;; run rest f'
  end.

End MainFrameEvents.

(** ** MainFrame.cpp / TCPClient.cpp: the wait inside [onConnect] *)

(** [waitForConnection] polls with [wxTheApp->Yield()], and a [Yield]
    dispatches whatever the application has pending: the notifications
    of any client's socket, the thread events queued by the data
    callbacks, timer ticks and the operator's actions, a further
    [onConnect] included, which then waits inside the wait of the first.
    The state is the frame together with the clients of the [onConnect]
    calls in progress, innermost first; these clients are not in
    [m_clients] yet.  A dialog is recorded when it is shown; what the
    library dispatches while a dialog is open is not modelled. *)
Module App.
Import MainFrame.

(** What the application can dispatch.  [Connect] carries what the
    environment contributes to that call of [onConnect]: the text of the
    input field, the initial content of the new client's uninitialised
    flag, what is dispatched in each round of its wait, and the outcome
    of sending the pin request.  [Waiting k] is a notification for the
    socket of the [k]-th call in progress, [Socket i] one for the [i]-th
    stored client. *)
#[local] Unset Elimination Schemes.
Inductive Event : Type :=
| Connect (pin : list byte) (indeterminate_flag : bool)
    (rounds : list (list Event)) (pin_send : TCPClient.SendEnv)
| Waiting (k : nat) (event : TCPClient.wxSocketEvent)
| Socket (i : nat) (event : TCPClient.wxSocketEvent)
| Thread
| Timer
| RecordToggle (pressed : bool)
| SensorSelected (selection : Z).
#[local] Set Elimination Schemes.

Definition State : Type := (list Client * MainFrame.t)%type.

(** A notification for the client of a call in progress; its data
    callback acts on the frame's event queue. *)
Definition waitingEvent (k : nat) (event : TCPClient.wxSocketEvent) (s : State)
  : result State :=
  match nth_error (fst s) k with
  | None => Ok s
  | Some c =>
      cw <- TCPClient.notify event c (events (snd s)) ;;
      Ok (set_nth k (fst cw) (fst s), with_events (snd cw) (snd s))
  end.

Section Yield.

(** The application's dispatch of one event to its handler. *)
Variable dispatch : Event -> State -> result State.

(** One [wxTheApp->Yield()]: the pending events are handled in order. *)
Fixpoint yield (pending : list Event) (s : State) : result State :=
  match pending with
  | [] => Ok s
  | event :: rest => s' <- dispatch event s ;; yield rest s'
  end.

(** [m_handshakeComplete] of the innermost call's client. *)
Definition handshakeComplete (s : State) : bool :=
  match fst s with
  | c :: _ => TCPClient.m_handshakeComplete c
  | [] => false
  end.

(** The polling loop of [waitForConnection]: one element of [rounds]
    per iteration that the timeout leaves room for. *)
Fixpoint wait_loop (rounds : list (list Event)) (s : State) : result State :=
  if handshakeComplete s then Ok s else
  match rounds with
  | [] => Ok s
  | pending :: rest => s' <- yield pending s ;; wait_loop rest s'
  end.

(** [client->waitForConnection(10)] in the application: the client is
    the innermost of the calls in progress while it waits. *)
Definition waitForConnection (rounds : list (list Event)) (client : Client)
  (s : State) : result (bool * State) :=
  (* reset state *)
  let client := TCPClient.set_m_handshakeComplete false client in
  s' <- wait_loop rounds (client :: fst s, snd s) ;;
  Ok (handshakeComplete s', s').

(** [MainFrame::onConnect] with the wait as the application runs it.
    The list of calls in progress that the wait returns starts with this
    call's client: no handler changes the length of the list.  No
    dispatched handler lets an exception escape, so the [catch] is not
    reached from the wait; it is given the state at entry. *)
Definition onConnect (pin : list byte) (indeterminate_flag : bool)
  (rounds : list (list Event)) (pin_send : TCPClient.SendEnv) (s : State)
  : result State :=
  let (waiting, f) := s in
  try_catch
    (if bytes_eqb pin []
     then Ok (waiting, wxMessageBox "Please enter a PIN" f) else
     let pinStr := pin in
     (* check if sensor already exists *)
     match find (has_pin pinStr) (m_sensors f) with
     | Some _ => Ok (waiting, wxMessageBox "Sensor already connected" f)
     | None =>
         (* create new client for this sensor *)
         let client := TCPClient.new indeterminate_flag in
         let client := TCPClient.setDataCallback (data_callback pinStr) client in
         let (connected, client) := TCPClient.connect client in
         waited <- (if connected
                    then waitForConnection rounds client s
                    else Ok (false, (client :: waiting, f))) ;;
         let client := hd client (fst (snd waited)) in
         let waiting := tl (fst (snd waited)) in
         let f := snd (snd waited) in
         if negb connected || negb (fst waited)
         then Ok (waiting, wxMessageBox "Failed to connect to Unity" f) else
         let (sent, client) := TCPClient.sendPinRequest pinStr pin_send client in
         if negb sent
         then Ok (waiting, wxMessageBox "Failed to connect to sensor" f) else
         Ok (waiting, with_clients (m_clients f ++ [client]) f)
     end)
    (fun e => Ok (waiting, wxMessageBox (what e) f)).

End Yield.

(** The handler of each event; the handlers dispatched inside the wait
    of an [onConnect] are these again. *)
Fixpoint handle (event : Event) (s : State) {struct event} : result State :=
  match event with
  | Connect pin flag rounds pin_send =>
      onConnect handle pin flag rounds pin_send s
  | Waiting k e => waitingEvent k e s
  | Socket i e => f <- socketEvent i e (snd s) ;; Ok (fst s, f)
  | Thread => Ok (fst s, processThreadEvent (snd s))
  | Timer => Ok (fst s, onTimer (snd s))
  | RecordToggle pressed =>
      Ok (fst s, MainFrameEvents.onRecordToggle pressed (snd s))
  | SensorSelected selection =>
      Ok (fst s, MainFrameEvents.onSensorSelected selection (snd s))
  end.

End App.

(** ** GraphPanel.h / GraphPanel.cpp: points and view window *)

(** The state behind [addPoint], [clear] and the dragging of the view.
    Painting, the tool tip and the hit test work on floating-point screen
    coordinates and are left out; time stamps are integers. *)
Module GraphPanel.

Definition MAX_POINTS : nat := 10.

Record DataPoint : Type := mkPoint { value : float; timestamp : Z }.

(** A [wxDateTime] member is [None] while it holds the invalid date its
    default constructor gives. *)
Record t : Type := mk {
  m_points : list DataPoint;
  m_startTime : option Z;
  m_firstPointTime : option Z;
  m_dragStart : Z * Z;
  m_mousePos : Z * Z;
  m_viewOffset : Z;                 (* int *)
  m_isDragging : bool;
  m_autoScrolling : bool
}.

(** The constructor: [m_mousePos(wxDefaultPosition)], [m_viewOffset(0)],
    [m_isDragging(false)], [m_autoScrolling(true)]; the other members are
    default-constructed. *)
Definition new : t :=
  mk [] None None (0, 0)%Z (-1, -1)%Z 0 false true.

(** [size_t] arithmetic, for a 64-bit [size_t]. *)
Definition size_t (z : Z) : Z := (z mod 18446744073709551616)%Z.

(** [addPoint]; [now] is [wxDateTime::Now()]. *)
Definition addPoint (v : float) (now : Z) (g : t) : t :=
  let point := mkPoint v now in
  let '(firstPointTime, startTime) :=
    match m_points g with
    | [] => (Some now, Some now)
    | _ => (m_firstPointTime g, m_startTime g)
    end in
  let points := m_points g ++ [point] in
  (* auto scroll *)
  let viewOffset :=
    if m_autoScrolling g && (MAX_POINTS <? length points)
    then Z.of_nat (length points - MAX_POINTS)
    else m_viewOffset g in
  mk points startTime firstPointTime (m_dragStart g) (m_mousePos g)
     viewOffset (m_isDragging g) (m_autoScrolling g).

Definition clear (g : t) : t :=
  mk [] (m_startTime g) (m_firstPointTime g) (m_dragStart g) (m_mousePos g)
     0 (m_isDragging g) (m_autoScrolling g).

Definition resetTime (now : Z) (g : t) : t :=
  mk (m_points g) (Some now) (m_firstPointTime g) (m_dragStart g) (m_mousePos g)
     (m_viewOffset g) (m_isDragging g) (m_autoScrolling g).

(** [int] has 32 bits; an [int] operation whose result does not fit is
    undefined. *)
Definition INT_MIN : Z := (-2147483648)%Z.
Definition INT_MAX : Z := 2147483647%Z.

Definition int_ (z : Z) : result Z :=
  if (INT_MIN <=? z)%Z && (z <=? INT_MAX)%Z then Ok z else Undefined.

(** The dragging branch of [onMouseMove], taken when [m_isDragging]
    holds; [pos] is [event.GetPosition()].  [dx], [abs(dx)] and
    [m_viewOffset] are [int]s; in the comparisons with
    [m_points.size() - 1] the offset is converted to [size_t]. *)
Definition drag (pos : Z * Z) (g : t) : result t :=
  dx <- int_ (fst pos - fst (m_dragStart g)) ;;
  distance <- int_ (Z.abs dx) ;;
  if (10 <? distance)%Z then
    viewOffset <- int_ (m_viewOffset g + (if (0 <? dx)%Z then -1 else 1)) ;;
    let viewOffset := Z.max 0 viewOffset in
    let last := size_t (Z.of_nat (length (m_points g)) - 1) in
    let autoScrolling :=
      (size_t viewOffset <=? last)%Z
      && (last <? size_t (viewOffset + Z.of_nat MAX_POINTS))%Z in
    Ok (mk (m_points g) (m_startTime g) (m_firstPointTime g) pos pos
          viewOffset (m_isDragging g) autoScrolling)
  else
    Ok (mk (m_points g) (m_startTime g) (m_firstPointTime g) (m_dragStart g) pos
          (m_viewOffset g) (m_isDragging g) (m_autoScrolling g)).

Definition MARGIN_LEFT : Z := 40.
Definition MARGIN_RIGHT : Z := 10.
Definition MARGIN_TOP : Z := 10.
Definition MARGIN_BOTTOM : Z := 30.

(** [isInPlotArea]; [size] is [GetSize()]. *)
Definition isInPlotArea (size pos : Z * Z) : bool :=
  (MARGIN_LEFT <=? fst pos)%Z
  && (fst pos <=? fst size - MARGIN_RIGHT)%Z
  && (MARGIN_TOP <=? snd pos)%Z
  && (snd pos <=? snd size - MARGIN_BOTTOM)%Z.

Definition onMouseLeftDown (size pos : Z * Z) (g : t) : t :=
  if isInPlotArea size pos
  then mk (m_points g) (m_startTime g) (m_firstPointTime g) pos (m_mousePos g)
          (m_viewOffset g) true (m_autoScrolling g)
  else g.

Definition onMouseLeftUp (g : t) : t :=
  if m_isDragging g
  then mk (m_points g) (m_startTime g) (m_firstPointTime g) (m_dragStart g)
          (m_mousePos g) (m_viewOffset g) false (m_autoScrolling g)
  else g.

(** [onMouseMove]; outside a drag only the mouse position and the tool
    tip change. *)
Definition onMouseMove (pos : Z * Z) (g : t) : result t :=
  if m_isDragging g then drag pos g
  else Ok (mk (m_points g) (m_startTime g) (m_firstPointTime g) (m_dragStart g)
             pos (m_viewOffset g) (m_isDragging g) (m_autoScrolling g)).

(** The indices [drawData] draws lines up to: from [m_viewOffset] to
    [std::min(m_viewOffset + MAX_POINTS, m_points.size())]. *)
Definition drawn (g : t) : Z * Z :=
  let startIdx := size_t (m_viewOffset g) in
  let endIdx := Z.min (size_t (m_viewOffset g + Z.of_nat MAX_POINTS))
                  (Z.of_nat (length (m_points g))) in
  (startIdx, endIdx).

End GraphPanel.

(** * Vocabulary of the statements *)

(** ** The codec *)

(** The optional error tail, as [deserialize] reads it from what follows
    the value. *)
Definition read_error (msg_type : Z) (tail : list byte) : list byte :=
  if (msg_type =? ERROR_STATE)%Z then
    match tail with
    | [] => []
    | el :: rest =>
        if Byte.to_nat el <=? length rest
        then firstn (Byte.to_nat el) rest
        else []
    end
  else [].

(** The errors the specification calls truncation. *)
Definition truncated (r : result UnityMessage) : Prop :=
  r = Throw Protocol.too_short \/ r = Throw Protocol.invalid_pin_length
  \/ r = Throw Protocol.truncated_at_value.

(** A [CONNECT] message whose [error] member is not empty. *)
Definition connect_with_error : UnityMessage :=
  UnityMessage.mk CONNECT [] float_zero [Byte.x78].

(** A pin request with a pin of 300 bytes. *)
Definition long_pin_request : UnityMessage :=
  UnityMessage.mk PIN_REQUEST (repeat Byte.x41 300) float_zero [].

(** An [ERROR_STATE] message with a one-byte error text. *)
Definition error_message : UnityMessage :=
  UnityMessage.mk ERROR_STATE [] float_zero [Byte.x78].

(** A pin response of value [v], as the test server builds its reply. *)
Definition pin_response (v : float) : UnityMessage :=
  UnityMessage.mk PIN_RESPONSE [] v [].

(** The pin "1234". *)
Definition pin_1234 : list byte := [Byte.x31; Byte.x32; Byte.x33; Byte.x34].

(** ** The sensor history *)

(** A sequence of [updateValue] calls, oldest first. *)
Definition updateValues (values : list float) (s : Sensor.t) : Sensor.t :=
  fold_left (fun s v => Sensor.updateValue v s) values s.

(** The last [n] elements of a list. *)
Definition lastn {A : Type} (n : nat) (l : list A) : list A :=
  skipn (length l - n) l.

(** ** The socket client *)

(** Both writes of a [sendMessage] of [n] payload bytes succeed. *)
Definition writes_succeed (n : nat) (env : TCPClient.SendEnv) : Prop :=
  TCPClient.size_write env = TCPClient.mkWrite false 4
  /\ TCPClient.data_write env = TCPClient.mkWrite false n.

(** [wxSOCKET_INPUT] notifications. *)
Definition is_input (event : TCPClient.wxSocketEvent) : bool :=
  match event with
  | TCPClient.wxSOCKET_INPUT _ => true
  | _ => false
  end.

(** The pin request [sendPinRequest] builds. *)
Definition pin_request (pin : list byte) (env : TCPClient.SendEnv)
  : UnityMessage :=
  UnityMessage.mk PIN_REQUEST pin (TCPClient.indeterminate_value env) [].

(** The bytes a successful [sendMessage] puts on the socket. *)
Definition frame_of (msg : UnityMessage) : list byte :=
  TCPClient.uint32_bytes (length (Protocol.serialize msg))
  ++ Protocol.serialize msg.

(** A client after the transport-connected event: socket connected, both
    flags clear, no callback. *)
Definition awaiting_handshake : TCPClient.t (list float) :=
  TCPClient.mk true [] false false None.

(** Both writes of a pin request for [pin] succeed (its payload has
    [length pin + 7] bytes). *)
Definition writes_ok (pin : list byte) : TCPClient.SendEnv :=
  TCPClient.mkSendEnv float_zero (TCPClient.mkWrite false 4)
    (TCPClient.mkWrite false (length pin + 7)).

(** ** The window's registry of clients and sensors *)

(** The [i]-th client has completed its handshake and carries the
    callback [onConnect] installs for [pin]; no sensor is registered for
    [pin] yet and no thread event is pending. *)
Definition authorizing (pin : list byte) (i : nat) (f : MainFrame.t) : Prop :=
  (exists c, nth_error (MainFrame.m_clients f) i = Some c
             /\ TCPClient.sock_connected c = true
             /\ TCPClient.m_connected c = true
             /\ TCPClient.m_handshakeComplete c = true
             /\ TCPClient.m_onData c = Some (MainFrame.data_callback pin))
  /\ find (MainFrame.has_pin pin) (MainFrame.m_sensors f) = None
  /\ MainFrame.events f = [].

(** Readings for [pin] reach a registered, connected sensor. *)
Definition streaming (pin : list byte) (i : nat) (f : MainFrame.t) : Prop :=
  (exists c, nth_error (MainFrame.m_clients f) i = Some c
             /\ TCPClient.m_connected c = true
             /\ TCPClient.m_handshakeComplete c = true)
  /\ exists s, find (MainFrame.has_pin pin) (MainFrame.m_sensors f) = Some s
               /\ Sensor.isConnected s = true
               /\ Sensor.getHistory s = [].

(** A client past its handshake with the callback for [pin]. *)
Definition ready_client (pin : list byte) : MainFrame.Client :=
  TCPClient.mk true [] true true (Some (MainFrame.data_callback pin)).

(** A frame whose only client is [ready_client pin]. *)
Definition frame_with_client (pin : list byte) : MainFrame.t :=
  MainFrame.mk [] [ready_client pin] (-1)%Z false [] [] [].

(** A frame in which the sensor for [pin_1234] is registered and its
    client is the only one. *)
Definition frame_streaming : MainFrame.t :=
  MainFrame.mk [Sensor.setConnected true (Sensor.new pin_1234)]
    [ready_client pin_1234] (-1)%Z false [] [] [].

(** One whole session on a new frame that is not recording: the operator
    asks for "1234"; during
    the wait the socket connects and then delivers [first_input]; the pin
    request is written; the peer answers with a pin response of value
    [response]; the frame handles the thread events queued so far. *)
Definition session_env (first_input : list byte) : MainFrame.ConnectEnv :=
  MainFrame.mkConnectEnv true
    [[TCPClient.wxSOCKET_CONNECTION
        (TCPClient.mkSendEnv float_zero (TCPClient.mkWrite false 4)
           (TCPClient.mkWrite false 7))];
     [TCPClient.wxSOCKET_INPUT first_input]]
    (writes_ok pin_1234).

Definition run_session (first_input : list byte) (response : float)
  : result MainFrame.t :=
  f1 <- MainFrame.onConnect pin_1234 (session_env first_input)
          (MainFrame.new false) ;;
  f2 <- MainFrame.socketEvent 0
          (TCPClient.wxSOCKET_INPUT (Protocol.serialize (pin_response response)))
          f1 ;;
  Ok (MainFrame.processThreadEvents (length (MainFrame.events f2)) f2).

(** A sensor reading of value [v] arrives on the first client after the
    session and the frame handles the queued thread events. *)
Definition then_reading (v : float) (r : result MainFrame.t)
  : result MainFrame.t :=
  f <- r ;;
  f' <- MainFrame.socketEvent 0
          (TCPClient.wxSOCKET_INPUT
             (Protocol.serialize (UnityMessage.mk SENSOR_DATA [] v [])))
          f ;;
  Ok (MainFrame.processThreadEvents (length (MainFrame.events f')) f').

(** The history of every registered sensor. *)
Definition histories (r : result MainFrame.t) : option (list (list float)) :=
  match r with
  | Ok f => Some (map Sensor.getHistory (MainFrame.m_sensors f))
  | _ => None
  end.

(** What the operator sees of a frame: the pins of the registered sensors
    with their connected flag, and the dialogs shown. *)
Definition visible (r : result MainFrame.t)
  : option (list (list byte * bool) * list string) :=
  match r with
  | Ok f => Some (map (fun s => (Sensor.getPin s, Sensor.isConnected s))
                    (MainFrame.m_sensors f),
                  MainFrame.dialogs f)
  | _ => None
  end.

(** No notification arrives during the wait. *)
Definition no_events : MainFrame.ConnectEnv :=
  MainFrame.mkConnectEnv false []
    (TCPClient.mkSendEnv float_zero (TCPClient.mkWrite false 4)
       (TCPClient.mkWrite false 11)).

(** ** Further vocabulary *)

(** The messages [serialize] encodes without loss. *)
Definition well_formed (m : UnityMessage) : Prop :=
  (0 <= type m < 256)%Z
  /\ length (pin m) <= 255
  /\ length (error m) <= 255
  /\ (type m <> ERROR_STATE -> error m = []).

(** The vectors the first [n] frame reads of a stream give, and what is
    left of the stream. *)
Fixpoint receive_n (n : nat) (indeterminate : list byte) (stream : list byte)
  : list (list byte) * list byte :=
  match n with
  | O => ([], stream)
  | S n' =>
      let (data, rest) := Wire.receive indeterminate stream in
      let (more, rest') := receive_n n' indeterminate rest in
      (data :: more, rest')
  end.

(** The reply of the test server to a handshake: the bytes its two
    writes put on the socket. *)
Definition server_reply (w1 w2 : TCPClient.WriteOutcome) : list byte :=
  firstn (TCPClient.wr_count w1)
    (TCPClient.uint32_bytes
       (length (Protocol.serialize (pin_response float_one))))
  ++ firstn (TCPClient.wr_count w2)
       (Protocol.serialize (pin_response float_one)).

(** The handshake message a client sends. *)
Definition connect_message (env : TCPClient.SendEnv) : UnityMessage :=
  UnityMessage.mk CONNECT [] (TCPClient.indeterminate_value env) [].

(** Notifications that do not report a lost connection. *)
Definition is_lost (event : TCPClient.wxSocketEvent) : bool :=
  match event with
  | TCPClient.wxSOCKET_LOST => true
  | _ => false
  end.

(** The sensor's client is flagged connected only while its socket is. *)
Definition link_ok (l : SensorLink.t) : Prop :=
  TCPClient.m_connected (SensorLink.m_client l) = true ->
  TCPClient.sock_connected (SensorLink.m_client l) = true.

(** The pins of the registered sensors, in order of registration. *)
Definition pins (f : MainFrame.t) : list (list byte) :=
  map Sensor.getPin (MainFrame.m_sensors f).

(** The [i]-th client is past its handshake with its socket connected
    and carries the callback for [pin]; no thread event is pending. *)
Definition listening (pin : list byte) (i : nat) (f : MainFrame.t) : Prop :=
  (exists c, nth_error (MainFrame.m_clients f) i = Some c
             /\ TCPClient.sock_connected c = true
             /\ TCPClient.m_connected c = true
             /\ TCPClient.m_handshakeComplete c = true
             /\ TCPClient.m_onData c = Some (MainFrame.data_callback pin))
  /\ MainFrame.events f = [].

(** A sensor reading of value [v]. *)
Definition sensor_data (v : float) : UnityMessage :=
  UnityMessage.mk SENSOR_DATA [] v [].

(** The operator asks for "1234" and is authorized, and then a second
    success event for the same pin arrives. *)
Definition two_authorizations : list MainFrameEvents.Event :=
  [MainFrameEvents.Connect pin_1234
     (session_env (Protocol.serialize (pin_response float_one)));
   MainFrameEvents.Socket 0
     (TCPClient.wxSOCKET_INPUT (Protocol.serialize (pin_response float_five)));
   MainFrameEvents.Thread;
   MainFrameEvents.Socket 0
     (TCPClient.wxSOCKET_INPUT (Protocol.serialize (pin_response float_five)));
   MainFrameEvents.Thread].

(** The connection of the only client is lost and the timer ticks. *)
Definition lost_and_pruned : list MainFrameEvents.Event :=
  [MainFrameEvents.Socket 0 TCPClient.wxSOCKET_LOST; MainFrameEvents.Timer].




(** The pin "5678". *)
Definition pin_5678 : list byte := [Byte.x35; Byte.x36; Byte.x37; Byte.x38].

(** Both writes of the handshake message succeed. *)
Definition connect_ok : TCPClient.SendEnv :=
  TCPClient.mkSendEnv float_zero (TCPClient.mkWrite false 4)
    (TCPClient.mkWrite false 7).

(** The operator asks for "5678" and no connection comes about; while
    [onConnect] waits, a stored client receives a pin response of value
    5.0 and the frame handles the thread event. *)
Definition authorized_during_wait : App.Event :=
  App.Connect pin_5678 false
    [[App.Socket 0
        (TCPClient.wxSOCKET_INPUT (Protocol.serialize (pin_response float_five)));
      App.Thread]]
    (writes_ok pin_5678).

(** The operator asks for "5678" and, while [onConnect] waits, for
    "1234".  During the wait of the second call both sockets connect and
    deliver their first input. *)
Definition connect_during_wait : App.Event :=
  App.Connect pin_5678 false
    [[App.Connect pin_1234 false
        [[App.Waiting 1 (TCPClient.wxSOCKET_CONNECTION connect_ok);
          App.Waiting 0 (TCPClient.wxSOCKET_CONNECTION connect_ok)];
         [App.Waiting 1
            (TCPClient.wxSOCKET_INPUT (Protocol.serialize (pin_response float_one)));
          App.Waiting 0
            (TCPClient.wxSOCKET_INPUT (Protocol.serialize (pin_response float_one)))]]
        (writes_ok pin_1234)]]
    (writes_ok pin_5678).

(** A sequence of [addPoint] calls, each with its value and time. *)
Definition addPoints (points : list (float * Z)) (g : GraphPanel.t)
  : GraphPanel.t :=
  fold_left (fun g p => GraphPanel.addPoint (fst p) (snd p) g) points g.

(** * Properties *)

(** ** Floats *)

(** The comparisons on the values the program and the specification
    name: 5.0 and 1000.0 are positive; -1.0, 0.0, -0.0 and a NaN are not;
    the two sentinels are distinct from each other and from 5.0. *)
Example float_comparisons :
  float_gt_zero float_five = true
  /\ float_gt_zero float_thousand = true
  /\ float_gt_zero float_neg_one = false
  /\ float_gt_zero float_zero = false
  /\ float_gt_zero (float_of_bits 0x80000000) = false
  /\ float_gt_zero (float_of_bits 0x7FC00000) = false
  /\ float_eq_const float_thousand float_neg_one = false
  /\ float_eq_const float_five float_neg_one = false
  /\ float_eq_const float_five float_thousand = false.
Proof. repeat split. Qed.

(** The handshake message of a client, as bytes. *)
Example serialize_connect :
  Protocol.serialize (UnityMessage.mk CONNECT [] float_zero [])
  = [Byte.x01; Byte.x00; Byte.x00; Byte.x00; Byte.x00; Byte.x00; Byte.x00].
Proof. reflexivity. Qed.

(** ** Bytes *)

Lemma to_nat_uint8_of_nat (n : nat) :
  Byte.to_nat (uint8_of_nat n) = n mod 256.
Proof.
  unfold uint8_of_nat.
  destruct (Byte.of_nat (n mod 256)) as [b|] eqn:E.
  - now apply Byte.to_of_nat in E.
  - apply Byte.of_nat_None_iff in E.
    pose proof (Nat.mod_upper_bound n 256). lia.
Qed.

Lemma uint8_of_nat_small (n : nat) :
  n <= 255 -> Byte.to_nat (uint8_of_nat n) = n.
Proof.
  intros H. rewrite to_nat_uint8_of_nat. apply Nat.mod_small. lia.
Qed.

Lemma uint8_of_nat_to_nat (b : byte) : uint8_of_nat (Byte.to_nat b) = b.
Proof.
  unfold uint8_of_nat.
  pose proof (Byte.to_nat_bounded b).
  rewrite Nat.mod_small by lia.
  now rewrite Byte.of_to_nat.
Qed.

Lemma Z_of_byte_uint8_of_Z (z : Z) : Z_of_byte (uint8_of_Z z) = (z mod 256)%Z.
Proof.
  unfold Z_of_byte, uint8_of_Z.
  pose proof (Z.mod_pos_bound z 256 ltac:(lia)).
  rewrite uint8_of_nat_small by lia.
  lia.
Qed.

Lemma Z_of_byte_range (b : byte) : (0 <= Z_of_byte b < 256)%Z.
Proof.
  unfold Z_of_byte. pose proof (Byte.to_nat_bounded b). lia.
Qed.

Lemma bytes_eqb_eq (a b : list byte) : bytes_eqb a b = true <-> a = b.
Proof.
  revert b. induction a as [|x a IH]; intros [|y b]; simpl; split;
    try easy.
  - intros H. apply andb_true_iff in H as [Hx Hab].
    apply Byte.byte_dec_bl in Hx. apply IH in Hab. congruence.
  - intros H. injection H as -> ->.
    apply andb_true_iff. split.
    + now apply Byte.byte_dec_lb.
    + now apply IH.
Qed.

Lemma bytes_eqb_refl (a : list byte) : bytes_eqb a a = true.
Proof. now apply bytes_eqb_eq. Qed.

(** ** The codec *)

Module ProtocolFacts.
Import Protocol.

(** A range inside the vector is copied; one that ends past the end is
    not a defined read. *)
Lemma range_in_bounds (data : list byte) (lo n : nat) :
  lo + n <= length data -> range data lo n = Ok (firstn n (skipn lo data)).
Proof. intros H. unfold range. apply Nat.leb_le in H. now rewrite H. Qed.

Lemma range_out_of_bounds (data : list byte) (lo n : nat) :
  length data < lo + n -> range data lo n = Undefined.
Proof. intros H. unfold range. apply Nat.leb_gt in H. now rewrite H. Qed.

(** [deserialize] on a buffer of at least three bytes, check by check. *)
Lemma deserialize_header (v ty pl : byte) (rest : list byte) :
  deserialize (v :: ty :: pl :: rest) =
  if negb (Byte.to_nat v =? PROTOCOL_VERSION) then Throw version_mismatch
  else if length rest <? Byte.to_nat pl then Throw invalid_pin_length
  else if length rest <? Byte.to_nat pl + 4 then Throw truncated_at_value
  else
    match skipn (Byte.to_nat pl) rest with
    | b0 :: b1 :: b2 :: b3 :: tail =>
        Ok (UnityMessage.mk (Z_of_byte ty) (firstn (Byte.to_nat pl) rest)
              (mkFloat b0 b1 b2 b3) (read_error (Z_of_byte ty) tail))
    | _ => Undefined
    end.
Proof.
  unfold deserialize.
  cbn [length].
  replace (S (S (S (length rest))) <? 3) with false
    by (symmetry; apply Nat.ltb_ge; lia).
  cbn [Nat.add at_ nth_error bind].
  destruct (negb (Byte.to_nat v =? PROTOCOL_VERSION)); [reflexivity|].
  set (n := Byte.to_nat pl).
  change (S (S (S (length rest))) <? S (S (S n))) with (length rest <? n).
  destruct (length rest <? n) eqn:Hpin; [reflexivity|].
  apply Nat.ltb_ge in Hpin.
  rewrite (range_in_bounds (v :: ty :: pl :: rest) 3 n) by (cbn [length]; lia).
  cbn [bind skipn].
  change (S (S (S (length rest))) <? S (S (S (n + 4))))
    with (length rest <? n + 4).
  destruct (length rest <? n + 4) eqn:Hval; [reflexivity|].
  apply Nat.ltb_ge in Hval.
  pose proof (length_skipn n rest) as Hlen.
  unfold memcpy_float, at_.
  cbn [Nat.add nth_error].
  rewrite <- (Nat.add_0_r n) at 1.
  rewrite <- !nth_error_skipn.
  change (S (S (S (n + 4))) <? S (S (S (length rest))))
    with (n + 4 <? length rest).
  replace (skipn (n + 4) rest) with (skipn 4 (skipn n rest))
    by (rewrite skipn_skipn; f_equal; lia).
  destruct (skipn n rest) as [|b0 [|b1 [|b2 [|b3 tail]]]] eqn:Hskip;
    cbn [length] in Hlen; try lia.
  cbn [nth_error bind skipn].
  unfold read_error.
  destruct (Z_of_byte ty =? ERROR_STATE)%Z; cbn [andb]; [|reflexivity].
  destruct tail as [|el tl]; cbn [length] in Hlen.
  - replace (n + 4 <? length rest) with false
      by (symmetry; apply Nat.ltb_ge; lia).
    reflexivity.
  - replace (n + 4 <? length rest) with true
      by (symmetry; apply Nat.ltb_lt; lia).
    cbn [nth_error bind skipn].
    change (S (S (S (n + 4 + 1 + Byte.to_nat el))) <=? S (S (S (length rest))))
      with (n + 4 + 1 + Byte.to_nat el <=? length rest).
    destruct (Byte.to_nat el <=? length tl) eqn:E.
    + apply Nat.leb_le in E.
      replace (n + 4 + 1 + Byte.to_nat el <=? length rest) with true
        by (symmetry; apply Nat.leb_le; lia).
      rewrite range_in_bounds by (cbn [length]; lia).
      cbn [skipn bind].
      replace (skipn (n + 4 + 1) rest) with (skipn 5 (skipn n rest))
        by (rewrite skipn_skipn; f_equal; lia).
      rewrite Hskip. reflexivity.
    + apply Nat.leb_gt in E.
      replace (n + 4 + 1 + Byte.to_nat el <=? length rest) with false
        by (symmetry; apply Nat.leb_gt; lia).
      reflexivity.
Qed.

Lemma serialize_layout (m : UnityMessage) :
  serialize m =
  Byte.x01 :: uint8_of_Z (type m) :: uint8_of_nat (length (pin m))
    :: pin m ++ float_bytes (value m)
       ++ (if (type m =? ERROR_STATE)%Z
           then uint8_of_nat (length (error m)) :: error m
           else []).
Proof. reflexivity. Qed.

Lemma serialize_length (m : UnityMessage) :
  length (serialize m) =
  3 + length (pin m) + 4
  + (if (type m =? ERROR_STATE)%Z then 1 + length (error m) else 0).
Proof.
  rewrite serialize_layout. cbn [length].
  rewrite !length_app. cbn [float_bytes length].
  destruct (type m =? ERROR_STATE)%Z; cbn [length]; lia.
Qed.

Lemma deserialize_short (data : list byte) :
  length data < 3 -> deserialize data = Throw too_short.
Proof.
  intros H. unfold deserialize.
  apply Nat.ltb_lt in H. now rewrite H.
Qed.

(** The copy the pin-length check guards: without the check, five pin
    bytes would be copied out of a vector that holds one. *)
Example range_past_the_end :
  range [Byte.x01; Byte.x00; Byte.x05; Byte.x41] 3 5 = Undefined
  /\ deserialize [Byte.x01; Byte.x00; Byte.x05; Byte.x41]
     = Throw invalid_pin_length.
Proof. split; reflexivity. Qed.

(** No input makes [deserialize] read outside the vector, neither by
    index nor by copying a range. *)
Lemma deserialize_in_bounds (data : list byte) :
  deserialize data <> Undefined.
Proof.
  destruct data as [|v [|ty [|pl rest]]];
    try (rewrite deserialize_short by (cbn; lia); discriminate).
  rewrite deserialize_header.
  destruct (negb _); [discriminate|].
  destruct (length rest <? Byte.to_nat pl) eqn:Hpin; [discriminate|].
  destruct (length rest <? Byte.to_nat pl + 4) eqn:Hval; [discriminate|].
  apply Nat.ltb_ge in Hval.
  pose proof (length_skipn (Byte.to_nat pl) rest) as Hlen.
  destruct (skipn (Byte.to_nat pl) rest) as [|b0 [|b1 [|b2 [|b3 tail]]]];
    cbn [length] in Hlen; try lia.
  discriminate.
Qed.

End ProtocolFacts.

Module CodecClaims.
Import Protocol ProtocolFacts.

(** C1 (as stated, refuted).  The claim quantifies over every message
    with a pin of at most 255 bytes and, for [ERROR_STATE], an error of
    at most 255 bytes.  [serialize] writes the [error] member for
    [ERROR_STATE] only, so a [CONNECT] message that carries an error
    text comes back with an empty one. *)
Lemma roundtrip_loses_error_outside_error_state :
  ~ (forall m : UnityMessage,
        length (pin m) <= 255 ->
        (type m = ERROR_STATE -> length (error m) <= 255) ->
        deserialize (serialize m) = Ok m).
Proof.
  intros H.
  specialize (H connect_with_error).
  assert (E : deserialize (serialize connect_with_error)
              = Ok (UnityMessage.mk CONNECT [] float_zero []))
    by reflexivity.
  rewrite E in H.
  assert (Hm : Ok (UnityMessage.mk CONNECT [] float_zero [])
               = Ok connect_with_error).
  { apply H; cbn; [lia | discriminate]. }
  discriminate Hm.
Qed.

(** C1 (amended).  For every message whose type tag fits a byte (the
    five enumerators do), whose pin has at most 255 bytes, whose error
    has at most 255 bytes when the type is [ERROR_STATE] and is empty
    otherwise, deserializing the serialized message gives back the same
    type, pin, value and error. *)
Theorem deserialize_serialize (m : UnityMessage) :
  (0 <= type m < 256)%Z ->
  length (pin m) <= 255 ->
  (type m = ERROR_STATE -> length (error m) <= 255) ->
  (type m <> ERROR_STATE -> error m = []) ->
  deserialize (serialize m) = Ok m.
Proof.
  destruct m as [ty p [b0 b1 b2 b3] err]. cbn [type pin value error].
  intros Hty Hpin Herr Hnil.
  rewrite serialize_layout. cbn [type pin value error].
  rewrite deserialize_header.
  change (negb (Byte.to_nat Byte.x01 =? PROTOCOL_VERSION)) with false.
  cbv iota.
  rewrite uint8_of_nat_small by assumption.
  rewrite Z_of_byte_uint8_of_Z, Z.mod_small by assumption.
  rewrite !length_app. cbn [length].
  replace (length p + (4 + _) <? length p) with false
    by (symmetry; apply Nat.ltb_ge; lia).
  replace (length p + (4 + _) <? length p + 4) with false
    by (symmetry; apply Nat.ltb_ge; lia).
  rewrite skipn_app, skipn_all, Nat.sub_diag. cbn [skipn app].
  rewrite firstn_app, firstn_all, Nat.sub_diag. cbn [firstn].
  rewrite app_nil_r.
  unfold read_error.
  cbn [float_bytes fb0 fb1 fb2 fb3 app].
  destruct (ty =? ERROR_STATE)%Z eqn:E.
  - apply Z.eqb_eq in E. specialize (Herr E).
    rewrite uint8_of_nat_small by assumption.
    rewrite Nat.leb_refl, firstn_all. reflexivity.
  - apply Z.eqb_neq in E. rewrite (Hnil E). reflexivity.
Qed.

Lemma deserialize_serialize_witness :
  deserialize
    (serialize (UnityMessage.mk ERROR_STATE [Byte.x31; Byte.x32] float_five
                  [Byte.x6e; Byte.x6f]))
  = Ok (UnityMessage.mk ERROR_STATE [Byte.x31; Byte.x32] float_five
          [Byte.x6e; Byte.x6f]).
Proof.
  apply deserialize_serialize; cbn [type pin error length].
  - unfold ERROR_STATE. lia.
  - lia.
  - intros _. lia.
  - intros H. now contradiction H.
Defined.

(** C2 (as stated, refuted).  [serialize] has no failure path: for the
    300-byte pin it returns 307 bytes, with the length byte holding
    300 mod 256 = 44 in front of all 300 pin bytes. *)
Lemma serialize_accepts_long_pin :
  length (pin long_pin_request) = 300
  /\ length (serialize long_pin_request) = 307
  /\ nth_error (serialize long_pin_request) 2 = Some Byte.x2c
  /\ firstn 300 (skipn 3 (serialize long_pin_request)) = pin long_pin_request.
Proof. repeat split; vm_compute; reflexivity. Qed.

(** C2 (amended).  Serialization never fails and never returns an empty
    buffer: for every message the output has 3 + |pin| + 4 bytes, plus
    1 + |error| for [ERROR_STATE]; no byte of the pin or of the error is
    dropped, and each length byte holds the field's length modulo 256
    (the length itself when it is at most 255). *)
Theorem serialize_total (m : UnityMessage) :
  serialize m <> []
  /\ length (serialize m)
     = 3 + length (pin m) + 4
       + (if (type m =? ERROR_STATE)%Z then 1 + length (error m) else 0)
  /\ (exists pl, nth_error (serialize m) 2 = Some pl
                 /\ Byte.to_nat pl = length (pin m) mod 256)
  /\ firstn (length (pin m)) (skipn 3 (serialize m)) = pin m
  /\ (type m = ERROR_STATE ->
      exists el, nth_error (serialize m) (3 + length (pin m) + 4) = Some el
                 /\ Byte.to_nat el = length (error m) mod 256
                 /\ skipn (3 + length (pin m) + 4 + 1) (serialize m) = error m).
Proof.
  split; [rewrite serialize_layout; discriminate|].
  split; [apply serialize_length|].
  split.
  { exists (uint8_of_nat (length (pin m))). split.
    - reflexivity.
    - apply to_nat_uint8_of_nat. }
  split.
  { rewrite serialize_layout. cbn [skipn].
    rewrite firstn_app, firstn_all, Nat.sub_diag. cbn [firstn].
    apply app_nil_r. }
  intros Hty.
  exists (uint8_of_nat (length (error m))).
  rewrite serialize_layout, Hty. cbn [Z.eqb ERROR_STATE Pos.eqb].
  cbn [Nat.add nth_error skipn].
  split; [|split].
  - rewrite nth_error_app2 by lia.
    replace (length (pin m) + 4 - length (pin m)) with 4 by lia.
    reflexivity.
  - apply to_nat_uint8_of_nat.
  - rewrite skipn_app, skipn_all2 by lia.
    replace (length (pin m) + 4 + 1 - length (pin m)) with 5 by lia.
    reflexivity.
Qed.

(** C3 (as stated, refuted).  The encoding of [error_message] has nine
    bytes; its first eight (the error text cut off) and its first seven
    (the whole error tail cut off) both decode, to a message with an
    empty error. *)
Lemma prefix_of_error_message_decodes :
  length (serialize error_message) = 9
  /\ deserialize (firstn 8 (serialize error_message))
     = Ok (UnityMessage.mk ERROR_STATE [] float_zero [])
  /\ deserialize (firstn 7 (serialize error_message))
     = Ok (UnityMessage.mk ERROR_STATE [] float_zero []).
Proof. repeat split; reflexivity. Qed.

(** C3 (amended).  For every message with a pin of at most 255 bytes,
    every prefix of its encoding that stops before the end of the value
    field fails with one of the truncation errors; when the type is not
    [ERROR_STATE] these are all the strict prefixes.  On no input at all
    does [deserialize] read outside the buffer: every indexed read and
    every copied range lies inside it. *)
Theorem deserialize_prefix (m : UnityMessage) (k : nat) :
  length (pin m) <= 255 ->
  k < length (serialize m) ->
  (type m = ERROR_STATE -> k < 3 + length (pin m) + 4) ->
  truncated (deserialize (firstn k (serialize m)))
  /\ forall data, deserialize data <> Undefined.
Proof.
  intros Hpin Hk Herr.
  split; [|apply deserialize_in_bounds].
  assert (Hk' : k < 3 + length (pin m) + 4).
  { rewrite serialize_length in Hk.
    destruct (type m =? ERROR_STATE)%Z eqn:E.
    - apply Z.eqb_eq in E. auto.
    - lia. }
  clear Hk Herr.
  rewrite serialize_layout.
  set (tail := if (type m =? ERROR_STATE)%Z then _ else _).
  destruct k as [|[|[|k]]];
    try (left; apply deserialize_short; cbn; lia).
  cbn [firstn]. rewrite deserialize_header.
  change (negb (Byte.to_nat Byte.x01 =? PROTOCOL_VERSION)) with false.
  cbv iota.
  rewrite uint8_of_nat_small by assumption.
  rewrite length_firstn, !length_app. cbn [float_bytes length].
  destruct (Nat.min k _ <? length (pin m)) eqn:E1.
  - right. left. reflexivity.
  - replace (Nat.min k _ <? length (pin m) + 4) with true
      by (symmetry; apply Nat.ltb_lt; lia).
    right. right. reflexivity.
Qed.

Lemma deserialize_prefix_witness :
  truncated
    (deserialize
       (firstn 5 (serialize (UnityMessage.mk SENSOR_DATA [Byte.x31] float_five []))))
  /\ forall data, deserialize data <> Undefined.
Proof.
  apply deserialize_prefix.
  - cbn. lia.
  - cbn. lia.
  - intros H. discriminate H.
Defined.

(** C10.  The type byte is never validated.  Whenever the buffer passes
    the short-buffer, version and truncation checks, [deserialize]
    returns a message whose type is the value of the type byte, whatever
    that byte is; the outcome of those checks does not depend on the
    type byte; and the only errors are the ones those checks raise. *)
Theorem deserialize_keeps_type_byte (v ty pl : byte) (rest : list byte) :
  Byte.to_nat v = PROTOCOL_VERSION ->
  Byte.to_nat pl + 4 <= length rest ->
  (exists msg, deserialize (v :: ty :: pl :: rest) = Ok msg
               /\ type msg = Z_of_byte ty)
  /\ (forall ty' e, deserialize (v :: ty' :: pl :: rest) <> Throw e)
  /\ (forall data e, deserialize data = Throw e ->
        e = too_short \/ e = version_mismatch
        \/ e = invalid_pin_length \/ e = truncated_at_value).
Proof.
  intros Hv Hlen.
  assert (Hdec : forall t, exists msg,
             deserialize (v :: t :: pl :: rest) = Ok msg
             /\ type msg = Z_of_byte t).
  { intros t. rewrite deserialize_header, Hv.
    change (negb (PROTOCOL_VERSION =? PROTOCOL_VERSION)) with false.
    cbv iota.
    replace (length rest <? Byte.to_nat pl) with false
      by (symmetry; apply Nat.ltb_ge; lia).
    replace (length rest <? Byte.to_nat pl + 4) with false
      by (symmetry; apply Nat.ltb_ge; lia).
    pose proof (length_skipn (Byte.to_nat pl) rest) as Hs.
    destruct (skipn (Byte.to_nat pl) rest) as [|b0 [|b1 [|b2 [|b3 tail]]]];
      cbn [length] in Hs; try lia.
    eexists. split; reflexivity. }
  split; [apply Hdec|]. split.
  - intros ty' e H. destruct (Hdec ty') as [msg [E _]]. congruence.
  - intros data e H.
    destruct data as [|v0 [|t0 [|p0 r0]]];
      try (rewrite deserialize_short in H by (cbn; lia);
           injection H as <-; now left).
    rewrite deserialize_header in H.
    destruct (negb _); [injection H as <-; tauto|].
    destruct (length r0 <? Byte.to_nat p0); [injection H as <-; tauto|].
    destruct (length r0 <? Byte.to_nat p0 + 4); [injection H as <-; tauto|].
    destruct (skipn (Byte.to_nat p0) r0) as [|b0 [|b1 [|b2 [|b3 tail]]]];
      discriminate H.
Qed.

Lemma deserialize_keeps_type_byte_witness :
  exists msg,
    deserialize [Byte.x01; Byte.xc8; Byte.x00;
                 Byte.x00; Byte.x00; Byte.x00; Byte.x00] = Ok msg
    /\ type msg = 200%Z.
Proof.
  apply (deserialize_keeps_type_byte Byte.x01 Byte.xc8 Byte.x00
           [Byte.x00; Byte.x00; Byte.x00; Byte.x00]).
  - reflexivity.
  - cbn. lia.
Defined.

End CodecClaims.

(** ** The sensor history *)

Module SensorClaims.
Import Sensor.

Lemma updateValue_history_length (v : float) (s : Sensor.t) :
  length (m_history s) <= MAX_HISTORY ->
  length (m_history (updateValue v s)) <= MAX_HISTORY.
Proof.
  unfold updateValue, MAX_HISTORY. cbn [m_history]. intros H.
  rewrite length_app. cbn [length].
  destruct (100 <=? length (m_history s)) eqn:E.
  - apply Nat.leb_le in E.
    destruct (m_history s); cbn [tl length] in *; lia.
  - apply Nat.leb_gt in E. lia.
Qed.

Lemma updateValues_history (values : list float) (s : Sensor.t) :
  length (m_history s) <= MAX_HISTORY ->
  m_history (updateValues values s)
  = lastn MAX_HISTORY (m_history s ++ values).
Proof.
  unfold lastn.
  revert s. induction values as [|v values IH]; intros s Hs.
  - cbn [updateValues fold_left]. rewrite app_nil_r.
    replace (length (m_history s) - MAX_HISTORY) with 0 by lia.
    reflexivity.
  - cbn [updateValues fold_left].
    change (fold_left (fun s v => updateValue v s) values (updateValue v s))
      with (updateValues values (updateValue v s)).
    rewrite IH by now apply updateValue_history_length.
    unfold updateValue, MAX_HISTORY in *. cbn [m_history].
    destruct (100 <=? length (m_history s)) eqn:E.
    + apply Nat.leb_le in E.
      destruct (m_history s) as [|x h]; cbn [length] in *; [lia|].
      cbn [tl]. rewrite <- !app_assoc. cbn [app length].
      rewrite !length_app. cbn [length].
      replace (S (length h + S (length values)) - 100)
        with (S (length h + S (length values) - 100)) by lia.
      reflexivity.
    + rewrite <- !app_assoc. reflexivity.
Qed.

(** C8.  After any sequence of [updateValue] calls on a new sensor the
    history is exactly the last 100 values of the sequence, in arrival
    order; so it never holds more than 100 readings, and a further
    reading arriving at a full history removes the oldest reading and
    nothing else. *)
Theorem history_is_ring_buffer (pin : list byte) (values : list float) :
  let s := updateValues values (Sensor.new pin) in
  m_history s = lastn MAX_HISTORY values
  /\ length (m_history s) <= MAX_HISTORY
  /\ forall v,
       m_history (updateValue v s)
       = (if length (m_history s) =? MAX_HISTORY
          then tl (m_history s)
          else m_history s) ++ [v].
Proof.
  cbv zeta.
  assert (H : m_history (updateValues values (Sensor.new pin))
              = lastn MAX_HISTORY values).
  { rewrite updateValues_history by (cbn; lia). reflexivity. }
  assert (L : length (m_history (updateValues values (Sensor.new pin)))
              <= MAX_HISTORY).
  { rewrite H. unfold lastn. rewrite length_skipn. lia. }
  split; [exact H|]. split; [exact L|].
  intros v. unfold updateValue at 1. cbn [m_history].
  destruct (length _ =? MAX_HISTORY) eqn:E.
  - apply Nat.eqb_eq in E. rewrite E, Nat.leb_refl. reflexivity.
  - apply Nat.eqb_neq in E.
    replace (MAX_HISTORY <=? _) with false
      by (symmetry; apply Nat.leb_gt; lia).
    reflexivity.
Qed.

End SensorClaims.

(** ** The socket client *)

Module ClientClaims.
Import Protocol ProtocolFacts TCPClient.

Section WithOwner.
Context {W : Type}.
Implicit Types (c : TCPClient.t W) (w : W).

(** The data handler returns normally on every input. *)
Lemma handleIncomingData_returns (data : list byte) c w :
  (exists msg, deserialize data = Ok msg
               /\ handleIncomingData data c w = Ok (dispatch msg c w))
  \/ (exists e, deserialize data = Throw e
                /\ handleIncomingData data c w = Ok (c, w)).
Proof.
  unfold handleIncomingData.
  destruct (deserialize data) as [msg|e|] eqn:E.
  - left. exists msg. split; reflexivity.
  - right. exists e. split; reflexivity.
  - now apply deserialize_in_bounds in E.
Qed.

Lemma handleIncomingData_cases (data : list byte) c w c1 w1 :
  handleIncomingData data c w = Ok (c1, w1) ->
  (exists msg, deserialize data = Ok msg /\ dispatch msg c w = (c1, w1))
  \/ (exists e, deserialize data = Throw e /\ c1 = c /\ w1 = w).
Proof.
  intros E.
  destruct (handleIncomingData_returns data c w)
    as [[msg [D E2]]|[e [D E2]]]; rewrite E2 in E.
  - left. exists msg. split; [exact D|]. now injection E.
  - right. exists e. injection E as <- <-. auto.
Qed.

Lemma dispatch_sock (msg : UnityMessage) c w :
  sock_connected (fst (dispatch msg c w)) = sock_connected c
  /\ sock_out (fst (dispatch msg c w)) = sock_out c
  /\ m_onData (fst (dispatch msg c w)) = m_onData c.
Proof.
  unfold dispatch.
  repeat match goal with
         | |- context [if ?b then _ else _] => destruct b
         end; cbn; auto.
Qed.

(** What an input notification does to a connected socket's client:
    the decoded message is dispatched, or nothing is when decoding
    fails, and then both flags are set if the handshake flag is still
    clear. *)
Lemma notify_input (data : list byte) c w :
  sock_connected c = true ->
  exists c1 w1,
    handleIncomingData data c w = Ok (c1, w1)
    /\ notify (wxSOCKET_INPUT data) c w
       = Ok (if m_handshakeComplete c1 then c1
             else set_m_handshakeComplete true (set_m_connected true c1),
             w1).
Proof.
  intros Hs. cbn [notify onSocketEvent]. rewrite Hs.
  destruct (handleIncomingData_returns data c w)
    as [[msg [_ E]]|[e [_ E]]]; rewrite E.
  - destruct (dispatch msg c w) as [c1 w1]. exists c1, w1.
    split; [reflexivity|]. cbn.
    destruct (m_handshakeComplete c1); reflexivity.
  - exists c, w. split; [reflexivity|]. cbn.
    destruct (m_handshakeComplete c); reflexivity.
Qed.

Lemma notify_returns (event : wxSocketEvent) c w :
  exists c' w', notify event c w = Ok (c', w').
Proof.
  destruct event as [env|data|]; cbn [notify onSocketEvent].
  - cbn. eauto.
  - destruct (sock_connected c) eqn:Hs; [|eauto].
    destruct (notify_input data c w Hs) as [c1 [w1 [_ E]]].
    cbn [notify onSocketEvent] in E. rewrite Hs in E. eauto.
  - eauto.
Qed.

Lemma sendMessage_flags (msg : UnityMessage) (env : SendEnv) c :
  m_handshakeComplete (snd (sendMessage msg env c)) = m_handshakeComplete c
  /\ m_connected (snd (sendMessage msg env c)) = m_connected c.
Proof.
  unfold sendMessage.
  repeat match goal with
         | |- context [if ?b then _ else _] => destruct b
         end; cbn; auto.
Qed.

Lemma sendMessage_succeeds (msg : UnityMessage) (env : SendEnv) c :
  sock_connected c = true ->
  writes_succeed (length (serialize msg)) env ->
  exists c',
    sendMessage msg env c = (true, c')
    /\ sock_out c'
       = sock_out c ++ uint32_bytes (length (serialize msg)) ++ serialize msg.
Proof.
  intros Hs [H1 H2]. unfold sendMessage.
  rewrite Hs, H1, H2. cbn [negb wr_error wr_count orb Nat.eqb].
  rewrite Nat.eqb_refl. cbn [negb].
  eexists. split; [reflexivity|].
  cbn [Write sock_out wr_count].
  rewrite firstn_all. rewrite <- app_assoc. reflexivity.
Qed.

(** A notification other than input leaves a clear handshake flag
    clear. *)
Lemma notify_other_keeps_handshake (event : wxSocketEvent) c w c' w' :
  is_input event = false ->
  m_handshakeComplete c = false ->
  notify event c w = Ok (c', w') ->
  m_handshakeComplete c' = false.
Proof.
  intros Hev Hh E. destruct event as [env|data|]; [|discriminate Hev|].
  - cbn [notify onSocketEvent set_sock_connected sock_connected] in E.
    injection E as <- _.
    rewrite (proj1 (sendMessage_flags _ _ _)). exact Hh.
  - cbn in E. injection E as <- _. reflexivity.
Qed.

Lemma yield_other_keeps_handshake (pending : list wxSocketEvent) c w c' w' :
  forallb (fun event => negb (is_input event)) pending = true ->
  m_handshakeComplete c = false ->
  yield pending c w = Ok (c', w') ->
  m_handshakeComplete c' = false.
Proof.
  revert c w. induction pending as [|event rest IH]; intros c w Hall Hh E.
  - cbn in E. injection E as <- _. exact Hh.
  - cbn [forallb] in Hall. apply andb_true_iff in Hall as [Hev Hrest].
    apply negb_true_iff in Hev.
    cbn [yield] in E.
    destruct (notify_returns event c w) as [c1 [w1 E1]].
    rewrite E1 in E. cbn [bind fst snd] in E.
    apply (IH c1 w1); try assumption.
    now apply (notify_other_keeps_handshake event c w c1 w1).
Qed.

(** C4.  Take a client whose socket is connected and whose handshake
    flag is clear (the state the transport-connected event leaves a
    fresh connection attempt in).  Then
    - [sendPinRequest] returns [false] and leaves the client, hence
      the bytes on the socket, unchanged;
    - this stays so across any notifications other than input, and
      neither [connect] nor [disconnect] sets the handshake flag;
    - one input notification, whatever bytes it delivers, sets both
      flags; from then on [sendPinRequest] is [sendMessage] of the pin
      request, and returns [true] with the framed request written
      when both writes succeed. *)
Theorem handshake_completes_on_first_input c w :
  sock_connected c = true ->
  m_handshakeComplete c = false ->
  (forall pin env, sendPinRequest pin env c = (false, c))
  /\ (forall pending c' w',
         forallb (fun event => negb (is_input event)) pending = true ->
         yield pending c w = Ok (c', w') ->
         m_handshakeComplete c' = false
         /\ forall pin env, sendPinRequest pin env c' = (false, c'))
  /\ m_handshakeComplete (disconnect c) = false
  /\ m_handshakeComplete (snd (connect c)) = false
  /\ (forall data, exists c' w',
         notify (wxSOCKET_INPUT data) c w = Ok (c', w')
         /\ m_connected c' = true
         /\ m_handshakeComplete c' = true
         /\ (forall pin env,
                sendPinRequest pin env c'
                = sendMessage (pin_request pin env) env c')
         /\ (forall pin env,
                writes_succeed (length (serialize (pin_request pin env))) env ->
                exists c'',
                  sendPinRequest pin env c' = (true, c'')
                  /\ sock_out c''
                     = sock_out c' ++ frame_of (pin_request pin env))).
Proof.
  intros Hs Hh.
  assert (Hrefuse : forall c0 pin env,
             m_handshakeComplete c0 = false ->
             sendPinRequest pin env c0 = (false, c0)).
  { intros c0 pin env H0. unfold sendPinRequest. rewrite H0.
    now rewrite orb_true_r. }
  split; [intros; now apply Hrefuse|].
  split.
  { intros pending c' w' Hall E.
    assert (m_handshakeComplete c' = false)
      by now apply (yield_other_keeps_handshake pending c w c' w').
    split; [assumption|]. intros; now apply Hrefuse. }
  split.
  { unfold disconnect. destruct (m_connected c); cbn; exact Hh. }
  split.
  { unfold connect, disconnect. cbn [snd].
    destruct (sock_connected c), (m_connected c); cbn; exact Hh. }
  intros data.
  destruct (notify_input data c w Hs) as [c1 [w1 [E1 E]]].
  rewrite E.
  set (c' := if m_handshakeComplete c1 then c1 else _).
  assert (Hsock1 : sock_connected c1 = true).
  { destruct (handleIncomingData_cases data c w c1 w1 E1)
      as [[msg [_ E2]]|[e [_ [-> _]]]]; [|exact Hs].
    pose proof (proj1 (dispatch_sock msg c w)) as H.
    rewrite E2 in H. cbn [fst] in H. now rewrite H. }
  assert (Hh' : m_handshakeComplete c' = true).
  { subst c'. destruct (m_handshakeComplete c1) eqn:H1; [exact H1|reflexivity]. }
  assert (Hc' : m_connected c' = true).
  { subst c'. destruct (m_handshakeComplete c1) eqn:H1; [|reflexivity].
    (* the flag was raised by the handshake branch of [dispatch] *)
    destruct (handleIncomingData_cases data c w c1 w1 E1)
      as [[msg [_ E2]]|[e [_ [-> _]]]].
    - revert E2. unfold dispatch. rewrite Hh. cbn [negb].
      repeat match goal with
             | |- context [if ?b then _ else _] => destruct b
             end; intros E3; injection E3 as <- _;
        try (rewrite Hh in H1; discriminate H1); reflexivity.
    - rewrite Hh in H1. discriminate H1. }
  assert (Hsock' : sock_connected c' = true).
  { subst c'. destruct (m_handshakeComplete c1); [exact Hsock1|exact Hsock1]. }
  exists c', w1. split; [reflexivity|].
  split; [exact Hc'|]. split; [exact Hh'|].
  assert (Hallow : forall pin env,
             sendPinRequest pin env c'
             = sendMessage (pin_request pin env) env c').
  { intros pin env. unfold sendPinRequest. now rewrite Hc', Hh'. }
  split; [exact Hallow|].
  intros pin env Hw. rewrite Hallow.
  now apply sendMessage_succeeds.
Qed.

(** C9.  When the bytes of the first input notification on a
    connected socket do not decode, the error is caught inside
    [handleIncomingData], which returns with nothing changed; the
    notification handler then sets both flags, and a following
    [sendPinRequest] goes through to the socket. *)
Theorem parse_failure_completes_handshake c w (data : list byte)
  (e : ProtocolError) :
  sock_connected c = true ->
  m_handshakeComplete c = false ->
  deserialize data = Throw e ->
  let c' := set_m_handshakeComplete true (set_m_connected true c) in
  handleIncomingData data c w = Ok (c, w)
  /\ notify (wxSOCKET_INPUT data) c w = Ok (c', w)
  /\ m_connected c' = true
  /\ m_handshakeComplete c' = true
  /\ forall pin env,
       writes_succeed (length (serialize (pin_request pin env))) env ->
       exists c'',
         sendPinRequest pin env c' = (true, c'')
         /\ sock_out c'' = sock_out c ++ frame_of (pin_request pin env).
Proof.
  intros Hs Hh Hd c'.
  assert (E : handleIncomingData data c w = Ok (c, w)).
  { unfold handleIncomingData. rewrite Hd. reflexivity. }
  split; [exact E|]. split.
  { cbn [notify onSocketEvent]. rewrite Hs, E. cbn [bind try_catch fst snd].
    rewrite Hh. reflexivity. }
  split; [reflexivity|]. split; [reflexivity|].
  intros pin env Hw.
  unfold sendPinRequest. cbn [c' m_connected m_handshakeComplete
    set_m_handshakeComplete set_m_connected negb orb].
  apply (sendMessage_succeeds (pin_request pin env) env c'); [exact Hs|exact Hw].
Qed.

End WithOwner.

Lemma handshake_completes_on_first_input_witness :
  sendPinRequest [Byte.x31] (writes_ok [Byte.x31]) awaiting_handshake
  = (false, awaiting_handshake).
Proof.
  exact (proj1 (handshake_completes_on_first_input awaiting_handshake []
                  eq_refl eq_refl) [Byte.x31] (writes_ok [Byte.x31])).
Defined.

Lemma parse_failure_completes_handshake_witness :
  notify (wxSOCKET_INPUT [Byte.x02]) awaiting_handshake []
  = Ok (TCPClient.mk true [] true true None, []).
Proof.
  exact (proj1 (proj2 (parse_failure_completes_handshake awaiting_handshake []
                         [Byte.x02] too_short eq_refl eq_refl eq_refl))).
Defined.

End ClientClaims.

(** ** The window's registry of clients and sensors *)

Module FrameClaims.
Import Protocol ProtocolFacts TCPClient MainFrame ClientClaims.

Lemma nth_error_set_nth_other (l : list Client) (i j : nat) (c : Client) :
  j <> i -> nth_error (set_nth i c l) j = nth_error l j.
Proof.
  revert i j. induction l as [|x l IH]; intros [|i] [|j] H; cbn;
    try reflexivity; try contradiction.
  apply IH. congruence.
Qed.

Lemma set_nth_same (l : list Client) (i : nat) (c : Client) :
  nth_error l i = Some c -> set_nth i c l = l.
Proof.
  revert i. induction l as [|x l IH]; intros [|i] H; cbn in *;
    try discriminate.
  - now injection H as ->.
  - f_equal. now apply IH.
Qed.

Lemma find_app_none {A : Type} (p : A -> bool) (l : list A) (x : A) :
  find p l = None -> find p (l ++ [x]) = if p x then Some x else None.
Proof.
  induction l as [|y l IH]; cbn; [reflexivity|].
  destruct (p y); [discriminate|exact IH].
Qed.

(** The input notification that delivers a pin response to a client
    past its handshake queues exactly one thread event for the frame:
    the success value when the response value is positive, the error
    value otherwise. *)
Lemma pin_response_queues_one_event (pin : list byte) (i : nat)
  (f : MainFrame.t) (data : list byte) (msg : UnityMessage) :
  authorizing pin i f ->
  deserialize data = Ok msg ->
  type msg = PIN_RESPONSE ->
  socketEvent i (wxSOCKET_INPUT data) f
  = Ok (with_events
          [(pin, if float_gt_zero (value msg)
                 then float_thousand else float_neg_one)] f).
Proof.
  intros [[c [Hc [Hs [Hm [Hh Hcb]]]]] [_ Hev]] Hd Hty.
  unfold socketEvent. rewrite Hc.
  cbn [notify onSocketEvent]. rewrite Hs.
  unfold handleIncomingData. rewrite Hd. cbn [bind try_catch].
  unfold dispatch. rewrite Hty, Hh.
  cbn [Z.eqb PIN_RESPONSE ERROR_STATE Pos.eqb negb].
  unfold call_onData. rewrite Hcb, Hev. unfold data_callback.
  destruct (float_gt_zero (value msg)); cbn [fst snd app negb bind];
    rewrite Hh; cbn [negb bind try_catch fst snd];
    rewrite (set_nth_same _ _ _ Hc);
    destruct f; reflexivity.
Qed.

(** C5.  Let a client be past its handshake, with its pin request
    made and no sensor registered for the pin.  When the next input
    decodes to a pin response of value 5.0, exactly one thread event is
    queued, carrying the success value; handling it registers one
    connected sensor for the pin and shows no dialog.  When the value
    is -1.0 instead, exactly one thread event is queued, carrying the
    error value; handling it shows the one dialog "Invalid PIN",
    registers no sensor, and passes no reading to a sensor or to the
    chart. *)
Theorem pin_response_outcome (pin : list byte) (i : nat) (f : MainFrame.t)
  (data : list byte) (msg : UnityMessage) :
  authorizing pin i f ->
  deserialize data = Ok msg ->
  type msg = PIN_RESPONSE ->
  (value msg = float_five ->
   exists f1,
     socketEvent i (wxSOCKET_INPUT data) f = Ok f1
     /\ events f1 = [(pin, float_thousand)]
     /\ let f2 := processThreadEvent f1 in
        streaming pin i f2
        /\ m_sensors f2
           = m_sensors f ++ [Sensor.setConnected true (Sensor.new pin)]
        /\ dialogs f2 = dialogs f
        /\ events f2 = [])
  /\ (value msg = float_neg_one ->
      exists f1,
        socketEvent i (wxSOCKET_INPUT data) f = Ok f1
        /\ events f1 = [(pin, float_neg_one)]
        /\ let f2 := processThreadEvent f1 in
           find (has_pin pin) (m_sensors f2) = None
           /\ m_sensors f2 = m_sensors f
           /\ m_graphPanel f2 = m_graphPanel f
           /\ dialogs f2 = dialogs f ++ ["Invalid PIN"%string]
           /\ events f2 = []).
Proof.
  intros Ha Hd Hty.
  pose proof (pin_response_queues_one_event pin i f data msg Ha Hd Hty) as E.
  destruct Ha as [[c [Hc [Hs [Hm [Hh Hcb]]]]] [Hnone Hev]].
  split; intros Hv; rewrite Hv in E; eexists; (split; [exact E|]).
  - change (float_gt_zero float_five) with true. cbv iota.
    split; [reflexivity|].
    unfold processThreadEvent. cbn [events with_events].
    unfold onSensorUpdate. cbn [fst snd].
    change (float_eq_const float_thousand float_neg_one) with false.
    change (float_eq_const float_thousand float_thousand) with true.
    cbv iota. cbn [m_sensors with_events]. rewrite Hnone.
    repeat split;
      cbn [m_sensors with_sensors with_events dialogs events m_clients].
    + exists c. auto.
    + exists (Sensor.setConnected true (Sensor.new pin)).
      rewrite (find_app_none _ _ _ Hnone).
      unfold has_pin. cbn [Sensor.getPin Sensor.setConnected Sensor.new
                             Sensor.m_pin].
      rewrite bytes_eqb_refl. repeat split.
  - change (float_gt_zero float_neg_one) with false. cbv iota.
    split; [reflexivity|].
    unfold processThreadEvent. cbn [events with_events].
    unfold onSensorUpdate. cbn [fst snd].
    change (float_eq_const float_neg_one float_neg_one) with true.
    cbv iota.
    cbn [wxMessageBox with_events m_sensors m_graphPanel dialogs events].
    repeat split. exact Hnone.
Qed.

Lemma authorizing_frame_with_client (pin : list byte) :
  authorizing pin 0 (frame_with_client pin).
Proof.
  split; [|split; reflexivity].
  exists (ready_client pin). repeat split.
Defined.

Lemma pin_response_outcome_witness :
  exists f1,
    socketEvent 0 (wxSOCKET_INPUT (serialize (pin_response float_five)))
      (frame_with_client pin_1234) = Ok f1
    /\ events f1 = [(pin_1234, float_thousand)]
    /\ let f2 := processThreadEvent f1 in
       streaming pin_1234 0 f2
       /\ m_sensors f2 = [Sensor.setConnected true (Sensor.new pin_1234)]
       /\ dialogs f2 = []
       /\ events f2 = [].
Proof.
  exact (proj1 (pin_response_outcome pin_1234 0 (frame_with_client pin_1234)
                  (serialize (pin_response float_five))
                  (pin_response float_five)
                  (authorizing_frame_with_client pin_1234)
                  eq_refl eq_refl) eq_refl).
Defined.

(** C6 (as stated, refuted).  A client past its handshake receives an
    empty buffer, which does not decode.  The notification leaves the
    whole frame as it was: the client is still connected, its socket is
    still open, and no thread event or dialog reports an error. *)
Lemma decode_error_closes_nothing :
  deserialize [] = Throw too_short
  /\ socketEvent 0 (wxSOCKET_INPUT []) (frame_with_client pin_1234)
     = Ok (frame_with_client pin_1234)
  /\ isServerConnected (frame_with_client pin_1234) = true
  /\ events (frame_with_client pin_1234) = []
  /\ dialogs (frame_with_client pin_1234) = [].
Proof. repeat split. Qed.

(** C6 (amended).  A decoding error raised while a client handles
    inbound data is caught inside that client's data handler: the socket
    notification returns normally, no callback is made, so no thread
    event is queued and no dialog is shown, no sensor changes, and every
    other client of the registry is left exactly as it was. *)
Theorem decode_error_is_contained (f : MainFrame.t) (i : nat)
  (data : list byte) (e : ProtocolError) :
  deserialize data = Throw e ->
  exists f',
    socketEvent i (wxSOCKET_INPUT data) f = Ok f'
    /\ events f' = events f
    /\ dialogs f' = dialogs f
    /\ m_sensors f' = m_sensors f
    /\ forall j, j <> i ->
         nth_error (m_clients f') j = nth_error (m_clients f) j.
Proof.
  intros Hd. unfold socketEvent.
  destruct (nth_error (m_clients f) i) as [c|] eqn:Hc.
  2:{ exists f. repeat split. }
  assert (Hh : handleIncomingData data c (events f) = Ok (c, events f)).
  { unfold handleIncomingData. rewrite Hd. reflexivity. }
  cbn [notify onSocketEvent].
  destruct (sock_connected c).
  - rewrite Hh. cbn [bind try_catch fst snd].
    destruct (negb (m_handshakeComplete c)); cbn [bind try_catch fst snd];
      eexists; (split; [reflexivity|]);
      cbn [events dialogs m_sensors m_clients with_events with_clients];
      repeat split; intros j Hj; now apply nth_error_set_nth_other.
  - cbn [bind fst snd]. eexists. split; [reflexivity|].
    cbn [events dialogs m_sensors m_clients with_events with_clients].
    repeat split. intros j Hj. now apply nth_error_set_nth_other.
Qed.

Lemma decode_error_is_contained_witness :
  exists f',
    socketEvent 0 (wxSOCKET_INPUT [Byte.x02; Byte.x02; Byte.x00])
      (frame_with_client pin_1234) = Ok f'
    /\ events f' = []
    /\ dialogs f' = []
    /\ m_sensors f' = []
    /\ forall j, j <> 0 ->
         nth_error (m_clients f') j
         = nth_error (m_clients (frame_with_client pin_1234)) j.
Proof.
  exact (decode_error_is_contained (frame_with_client pin_1234) 0
           [Byte.x02; Byte.x02; Byte.x00] version_mismatch eq_refl).
Defined.

(** C7.  When a sensor with the requested pin is registered,
    [onConnect] shows "Sensor already connected" and changes nothing
    else: no client and no sensor is added; a success event for that pin
    adds no second sensor either.  When the socket of the only client
    reports the connection lost, [checkServerConnection] removes that
    client and [isServerConnected] is false. *)
Theorem registry_rejects_duplicate_and_prunes :
  (forall (f : MainFrame.t) (pin : list byte) (env : ConnectEnv) (s : Sensor.t),
      pin <> [] ->
      In s (m_sensors f) ->
      Sensor.getPin s = pin ->
      exists f',
        onConnect pin env f = Ok f'
        /\ dialogs f' = dialogs f ++ ["Sensor already connected"%string]
        /\ m_clients f' = m_clients f
        /\ m_sensors f' = m_sensors f
        /\ events f' = events f
        /\ onSensorUpdate (pin, float_thousand) f = f)
  /\ (forall (f : MainFrame.t) (c : Client),
         m_clients f = [c] ->
         exists f',
           socketEvent 0 wxSOCKET_LOST f = Ok f'
           /\ m_clients (checkServerConnection f') = []
           /\ isServerConnected (checkServerConnection f') = false).
Proof.
  split.
  - intros f pin env s Hpin Hin Hs.
    assert (Hfind : exists s', find (has_pin pin) (m_sensors f) = Some s').
    { destruct (find (has_pin pin) (m_sensors f)) as [s'|] eqn:Hfind;
        [now exists s'|].
      apply (find_none _ _ Hfind) in Hin.
      unfold has_pin in Hin. rewrite Hs, bytes_eqb_refl in Hin.
      discriminate Hin. }
    destruct Hfind as [s' Hfind].
    unfold onConnect, onSensorUpdate.
    destruct (bytes_eqb pin []) eqn:Hempty.
    { apply bytes_eqb_eq in Hempty. contradiction. }
    cbn [fst snd].
    change (float_eq_const float_thousand float_neg_one) with false.
    change (float_eq_const float_thousand float_thousand) with true.
    rewrite Hfind. cbn [try_catch].
    eexists. split; [reflexivity|]. repeat split.
  - intros f c Hc. unfold socketEvent. rewrite Hc.
    cbn [nth_error notify onSocketEvent bind fst snd].
    eexists. split; [reflexivity|].
    unfold checkServerConnection, isServerConnected.
    cbn [m_clients with_clients with_events].
    cbn. split; reflexivity.
Qed.

Lemma registry_rejects_duplicate_and_prunes_witness :
  (exists f',
      onConnect pin_1234 no_events frame_streaming = Ok f'
      /\ dialogs f' = ["Sensor already connected"%string]
      /\ m_clients f' = [ready_client pin_1234]
      /\ m_sensors f' = m_sensors frame_streaming
      /\ events f' = []
      /\ onSensorUpdate (pin_1234, float_thousand) frame_streaming
         = frame_streaming)
  /\ (exists f',
         socketEvent 0 wxSOCKET_LOST frame_streaming = Ok f'
         /\ m_clients (checkServerConnection f') = []
         /\ isServerConnected (checkServerConnection f') = false).
Proof.
  split.
  - apply (proj1 registry_rejects_duplicate_and_prunes frame_streaming
             pin_1234 no_events (Sensor.setConnected true (Sensor.new pin_1234))).
    + discriminate.
    + left. reflexivity.
    + reflexivity.
  - apply (proj2 registry_rejects_duplicate_and_prunes frame_streaming
             (ready_client pin_1234)).
    reflexivity.
Defined.

(** ** Whole sessions *)

(** The handshake reply of the test server (a pin response of value 1.0)
    followed by a pin response of value 5.0: one connected sensor, no
    dialog. *)
Example session_authorized :
  visible (run_session (serialize (pin_response float_one)) float_five)
  = Some ([(pin_1234, true)], []).
Proof. vm_compute. reflexivity. Qed.

(** The same with a pin response of value -1.0: no sensor, one dialog. *)
Example session_rejected :
  visible (run_session (serialize (pin_response float_one)) float_neg_one)
  = Some ([], ["Invalid PIN"%string]).
Proof. vm_compute. reflexivity. Qed.

(** Bytes that do not decode complete the handshake as well. *)
Example session_authorized_after_garbage :
  visible (run_session [Byte.xff] float_five)
  = Some ([(pin_1234, true)], []).
Proof. vm_compute. reflexivity. Qed.

(** An [ERROR_STATE] message as the first input completes the handshake
    too, and its own error callback is already queued when the pin
    response arrives: the dialog is shown once for it and once for the
    rejected pin. *)
Example session_rejected_after_error_state :
  visible (run_session (serialize error_message) float_neg_one)
  = Some ([], ["Invalid PIN"%string; "Invalid PIN"%string]).
Proof. vm_compute. reflexivity. Qed.

(** After the authorization a reading reaches the sensor's history; after
    the rejection the same reading reaches no sensor. *)
Example session_streams_reading :
  histories (then_reading float_five
               (run_session (serialize (pin_response float_one)) float_five))
  = Some [[float_five]].
Proof. vm_compute. reflexivity. Qed.

Example session_rejected_drops_reading :
  histories (then_reading float_five
               (run_session (serialize (pin_response float_one)) float_neg_one))
  = Some [].
Proof. vm_compute. reflexivity. Qed.

End FrameClaims.

(** * Further properties of the code *)

(** ** The codec *)

Module CodecFacts.
Import Protocol ProtocolFacts.

(** What an accepted buffer looks like, and the message it gives. *)
Lemma deserialize_ok_inv (data : list byte) (msg : UnityMessage) :
  deserialize data = Ok msg ->
  exists v ty pl rest b0 b1 b2 b3 tail,
    data = v :: ty :: pl :: rest
    /\ Byte.to_nat v = PROTOCOL_VERSION
    /\ Byte.to_nat pl <= length rest
    /\ skipn (Byte.to_nat pl) rest = b0 :: b1 :: b2 :: b3 :: tail
    /\ msg = UnityMessage.mk (Z_of_byte ty) (firstn (Byte.to_nat pl) rest)
               (mkFloat b0 b1 b2 b3) (read_error (Z_of_byte ty) tail).
Proof.
  intros H.
  destruct data as [|v [|ty [|pl rest]]];
    try (rewrite deserialize_short in H by (cbn; lia); discriminate H).
  rewrite deserialize_header in H.
  destruct (Byte.to_nat v =? PROTOCOL_VERSION) eqn:Hv; [|discriminate H].
  apply Nat.eqb_eq in Hv. cbn [negb] in H.
  destruct (length rest <? Byte.to_nat pl) eqn:Hpin; [discriminate H|].
  apply Nat.ltb_ge in Hpin.
  destruct (length rest <? Byte.to_nat pl + 4); [discriminate H|].
  destruct (skipn (Byte.to_nat pl) rest) as [|b0 [|b1 [|b2 [|b3 tail]]]] eqn:Hs;
    try discriminate H.
  injection H as <-.
  exists v, ty, pl, rest, b0, b1, b2, b3, tail. auto.
Qed.

Lemma deserialize_ok_intro (ty pl : byte) (p : list byte) (f : float)
  (tail : list byte) :
  Byte.to_nat pl = length p ->
  deserialize (Byte.x01 :: ty :: pl :: p ++ float_bytes f ++ tail)
  = Ok (UnityMessage.mk (Z_of_byte ty) p f (read_error (Z_of_byte ty) tail)).
Proof.
  intros Hpl. rewrite deserialize_header.
  change (negb (Byte.to_nat Byte.x01 =? PROTOCOL_VERSION)) with false.
  cbv iota. rewrite Hpl, !length_app.
  destruct f as [b0 b1 b2 b3]. cbn [float_bytes fb0 fb1 fb2 fb3 length].
  replace (length p + (4 + length tail) <? length p) with false
    by (symmetry; apply Nat.ltb_ge; lia).
  replace (length p + (4 + length tail) <? length p + 4) with false
    by (symmetry; apply Nat.ltb_ge; lia).
  rewrite skipn_app, skipn_all, Nat.sub_diag. cbn [skipn app].
  rewrite firstn_app, firstn_all, Nat.sub_diag. cbn [firstn].
  now rewrite app_nil_r.
Qed.

(** X1.  [deserialize] returns a message exactly when the buffer has at
    least three bytes, starts with the version byte 1, and is long enough
    for the pin its third byte announces and for the four bytes of the
    value. *)
Theorem deserialize_accepts_iff (data : list byte) :
  (exists msg, deserialize data = Ok msg)
  <-> exists v ty pl rest,
        data = v :: ty :: pl :: rest
        /\ Byte.to_nat v = PROTOCOL_VERSION
        /\ Byte.to_nat pl + 4 <= length rest.
Proof.
  split.
  - intros [msg H].
    destruct (deserialize_ok_inv data msg H)
      as (v & ty & pl & rest & b0 & b1 & b2 & b3 & tail & -> & Hv & Hpl & Hs & _).
    exists v, ty, pl, rest. repeat split; try assumption.
    pose proof (length_skipn (Byte.to_nat pl) rest) as L.
    rewrite Hs in L. cbn [length] in L. lia.
  - intros (v & ty & pl & rest & -> & Hv & Hlen).
    rewrite deserialize_header, Hv.
    change (negb (PROTOCOL_VERSION =? PROTOCOL_VERSION)) with false.
    cbv iota.
    replace (length rest <? Byte.to_nat pl) with false
      by (symmetry; apply Nat.ltb_ge; lia).
    replace (length rest <? Byte.to_nat pl + 4) with false
      by (symmetry; apply Nat.ltb_ge; lia).
    pose proof (length_skipn (Byte.to_nat pl) rest) as Hs.
    destruct (skipn (Byte.to_nat pl) rest) as [|b0 [|b1 [|b2 [|b3 tail]]]];
      cbn [length] in Hs; try lia.
    eexists. reflexivity.
Qed.

(** X2.  A buffer of at least three bytes whose first byte is not the
    version 1 is refused with the version error, whatever follows: the
    version is checked before the pin length and the value. *)
Theorem deserialize_version_guard (v : byte) (rest : list byte) :
  v <> Byte.x01 ->
  2 <= length rest ->
  deserialize (v :: rest) = Throw version_mismatch.
Proof.
  intros Hv Hlen.
  destruct rest as [|ty [|pl rest]]; cbn [length] in Hlen; try lia.
  rewrite deserialize_header.
  destruct (Byte.to_nat v =? PROTOCOL_VERSION) eqn:E; [|reflexivity].
  apply Nat.eqb_eq in E. exfalso. apply Hv.
  rewrite <- (uint8_of_nat_to_nat v), E. reflexivity.
Qed.

Lemma deserialize_version_guard_witness :
  deserialize (Byte.x02 :: tl (serialize (pin_response float_five)))
  = Throw version_mismatch.
Proof.
  apply deserialize_version_guard.
  - discriminate.
  - cbn. lia.
Defined.

Lemma deserialize_serialize_app (m : UnityMessage) (extra : list byte) :
  well_formed m ->
  deserialize (serialize m ++ extra) = Ok m.
Proof.
  intros (Hty & Hpin & Herr & Hnil).
  rewrite serialize_layout. cbn [app]. rewrite <- !app_assoc.
  rewrite deserialize_ok_intro by now apply uint8_of_nat_small.
  rewrite Z_of_byte_uint8_of_Z, Z.mod_small by assumption.
  destruct m as [ty p f err]. cbn [type pin value error] in *.
  f_equal. f_equal. unfold read_error.
  destruct (ty =? ERROR_STATE)%Z eqn:E.
  - cbn [app]. rewrite uint8_of_nat_small by assumption.
    rewrite length_app.
    replace (length err <=? length err + length extra) with true
      by (symmetry; apply Nat.leb_le; lia).
    rewrite firstn_app, firstn_all, Nat.sub_diag. cbn [firstn].
    apply app_nil_r.
  - apply Z.eqb_neq in E. now rewrite (Hnil E).
Qed.

(** X3.  Bytes that follow an encoded message are ignored: for every
    well-formed message, decoding its encoding followed by anything
    gives the message back. *)
Theorem deserialize_ignores_trailing (m : UnityMessage) (extra : list byte) :
  well_formed m ->
  deserialize (serialize m ++ extra) = Ok m.
Proof. apply deserialize_serialize_app. Qed.

Lemma deserialize_ignores_trailing_witness :
  deserialize (serialize error_message ++ [Byte.xff; Byte.xff])
  = Ok error_message.
Proof.
  apply deserialize_ignores_trailing.
  unfold well_formed, error_message. cbn [type pin error length].
  split; [unfold ERROR_STATE; lia|]. split; [lia|]. split; [lia|].
  intros H. exfalso. now apply H.
Defined.

Lemma decoded_well_formed (data : list byte) (msg : UnityMessage) :
  deserialize data = Ok msg -> well_formed msg.
Proof.
  intros H.
  destruct (deserialize_ok_inv data msg H)
    as (v & ty & pl & rest & b0 & b1 & b2 & b3 & tail & _ & _ & Hpl & _ & ->).
  unfold well_formed. cbn [type pin error].
  split; [apply Z_of_byte_range|].
  split.
  { rewrite length_firstn. pose proof (Byte.to_nat_bounded pl). lia. }
  unfold read_error. split.
  - destruct (Z_of_byte ty =? ERROR_STATE)%Z; [|cbn; lia].
    destruct tail as [|el tl]; [cbn; lia|].
    destruct (Byte.to_nat el <=? length tl); [|cbn; lia].
    rewrite length_firstn. pose proof (Byte.to_nat_bounded el). lia.
  - intros Hne. apply Z.eqb_neq in Hne. now rewrite Hne.
Qed.

(** X4.  Whatever [deserialize] returns is well-formed: the type is a
    byte value, pin and error have at most 255 bytes, and the error is
    empty unless the type is [ERROR_STATE]. *)
Theorem deserialize_well_formed (data : list byte) (msg : UnityMessage) :
  deserialize data = Ok msg -> well_formed msg.
Proof. apply decoded_well_formed. Qed.

Lemma deserialize_well_formed_witness :
  well_formed (UnityMessage.mk 200%Z [] float_zero []).
Proof.
  apply (deserialize_well_formed
           [Byte.x01; Byte.xc8; Byte.x00;
            Byte.x00; Byte.x00; Byte.x00; Byte.x00]).
  reflexivity.
Defined.

(** X5.  A message whose pin has more than 255 bytes, or whose type is
    [ERROR_STATE] and whose error has more than 255 bytes, is never what
    decoding its own encoding returns. *)
Theorem oversized_field_is_not_recovered (m : UnityMessage) :
  255 < length (pin m) \/ 255 < length (error m) ->
  deserialize (serialize m) <> Ok m.
Proof.
  intros H E. apply decoded_well_formed in E.
  destruct E as (_ & Hp & He & _). lia.
Qed.

Lemma oversized_field_is_not_recovered_witness :
  deserialize (serialize long_pin_request) <> Ok long_pin_request.
Proof.
  apply oversized_field_is_not_recovered.
  left. vm_compute. lia.
Defined.

(** X6.  Encodings of well-formed messages are prefix-free: if two of
    them, each followed by arbitrary bytes, give the same byte sequence,
    the messages are equal.  In particular [serialize] is injective on
    well-formed messages. *)
Theorem serialize_prefix_free (m1 m2 : UnityMessage) (e1 e2 : list byte) :
  well_formed m1 -> well_formed m2 ->
  serialize m1 ++ e1 = serialize m2 ++ e2 ->
  m1 = m2.
Proof.
  intros H1 H2 E.
  pose proof (deserialize_serialize_app m1 e1 H1) as D1.
  pose proof (deserialize_serialize_app m2 e2 H2) as D2.
  rewrite E in D1. congruence.
Qed.

Lemma serialize_prefix_free_witness :
  pin_response float_five = pin_response float_five.
Proof.
  apply (serialize_prefix_free _ _ [Byte.x00] [Byte.x00]).
  - unfold well_formed, pin_response. cbn [type pin error length].
    split; [unfold PIN_RESPONSE; lia|]. repeat split; lia.
  - unfold well_formed, pin_response. cbn [type pin error length].
    split; [unfold PIN_RESPONSE; lia|]. repeat split; lia.
  - reflexivity.
Defined.

(** X7.  Encoding what was decoded gives back the bytes that were read:
    when [deserialize] returns a message whose type is not
    [ERROR_STATE], the buffer is the encoding of that message followed
    by the bytes that were ignored. *)
Theorem serialize_deserialize (data : list byte) (msg : UnityMessage) :
  deserialize data = Ok msg ->
  type msg <> ERROR_STATE ->
  data = serialize msg ++ skipn (3 + length (pin msg) + 4) data.
Proof.
  intros H Hty.
  destruct (deserialize_ok_inv data msg H)
    as (v & ty & pl & rest & b0 & b1 & b2 & b3 & tail & -> & Hv & Hpl & Hs & ->).
  cbn [type pin] in *.
  rewrite serialize_layout. cbn [type pin value error].
  apply Z.eqb_neq in Hty. rewrite Hty.
  rewrite length_firstn, Nat.min_l by assumption.
  rewrite uint8_of_nat_to_nat.
  unfold Z_of_byte, uint8_of_Z.
  pose proof (Byte.to_nat_bounded ty).
  rewrite Z.mod_small, Nat2Z.id, uint8_of_nat_to_nat by lia.
  replace Byte.x01 with v
    by (rewrite <- (uint8_of_nat_to_nat v), Hv; reflexivity).
  cbn [Nat.add skipn app]. do 3 f_equal.
  rewrite app_nil_r, <- app_assoc.
  rewrite <- (firstn_skipn (Byte.to_nat pl) rest) at 1. f_equal.
  replace (Byte.to_nat pl + 4) with (4 + Byte.to_nat pl) by lia.
  rewrite <- skipn_skipn, Hs. reflexivity.
Qed.

Lemma serialize_deserialize_witness :
  [Byte.x01; Byte.x03; Byte.x00; Byte.x00; Byte.x00; Byte.xa0; Byte.x40; Byte.x07]
  = serialize (UnityMessage.mk SENSOR_DATA [] float_five [])
    ++ [Byte.x07].
Proof.
  apply (serialize_deserialize
           [Byte.x01; Byte.x03; Byte.x00; Byte.x00; Byte.x00; Byte.xa0;
            Byte.x40; Byte.x07]
           (UnityMessage.mk SENSOR_DATA [] float_five [])).
  - reflexivity.
  - discriminate.
Defined.

End CodecFacts.

(** ** Frames on the byte stream *)

Module WireFacts.
Import Protocol ProtocolFacts Wire.

Lemma uint32_of_uint32_bytes (n : nat) :
  (Z.of_nat n < 4294967296)%Z ->
  uint32_of_bytes (TCPClient.uint32_bytes n) = n.
Proof.
  intros H. unfold TCPClient.uint32_bytes, uint32_of_bytes.
  rewrite Z.mod_small by lia.
  rewrite !Z_of_byte_uint8_of_Z.
  set (z := Z.of_nat n) in *.
  assert (Hz : (0 <= z)%Z) by (subst z; lia).
  replace (z mod 256 + 256 * ((z / 256) mod 256)
           + 65536 * ((z / 65536) mod 256)
           + 16777216 * ((z / 16777216) mod 256))%Z with z.
  - subst z. apply Nat2Z.id.
  - replace (z / 65536)%Z with (z / 256 / 256)%Z
      by (rewrite Z.div_div by lia; reflexivity).
    replace (z / 16777216)%Z with (z / 256 / 256 / 256)%Z
      by (rewrite !Z.div_div by lia; reflexivity).
    assert (Htop : (z / 256 / 256 / 256 < 256)%Z).
    { rewrite !Z.div_div by lia. apply Z.div_lt_upper_bound; lia. }
    assert (Htop0 : (0 <= z / 256 / 256 / 256)%Z)
      by (rewrite !Z.div_div by lia; apply Z.div_pos; lia).
    rewrite (Z.mod_small (z / 256 / 256 / 256)) by lia.
    pose proof (Z.div_mod z 256 ltac:(lia)).
    pose proof (Z.div_mod (z / 256) 256 ltac:(lia)).
    pose proof (Z.div_mod (z / 256 / 256) 256 ltac:(lia)).
    lia.
Qed.

Lemma serialize_fits_uint32 (m : UnityMessage) :
  well_formed m -> (Z.of_nat (length (serialize m)) < 4294967296)%Z.
Proof.
  intros (_ & Hp & He & _). rewrite serialize_length.
  destruct (type m =? ERROR_STATE)%Z; lia.
Qed.

Lemma receive_frame (indeterminate payload rest : list byte) :
  (Z.of_nat (length payload) < 4294967296)%Z ->
  receive indeterminate
    (TCPClient.uint32_bytes (length payload) ++ payload ++ rest)
  = (payload, rest).
Proof.
  intros H. unfold receive, read_size, Read.
  change (firstn 4 (TCPClient.uint32_bytes (length payload) ++ payload ++ rest))
    with (TCPClient.uint32_bytes (length payload)).
  change (skipn 4 (TCPClient.uint32_bytes (length payload) ++ payload ++ rest))
    with (payload ++ rest).
  change (length (TCPClient.uint32_bytes (length payload))) with 4.
  rewrite skipn_firstn_comm. cbn [Nat.sub firstn]. rewrite app_nil_r.
  rewrite uint32_of_uint32_bytes by assumption.
  unfold read_vector, Read.
  rewrite firstn_app, firstn_all, Nat.sub_diag. cbn [firstn].
  rewrite app_nil_r, Nat.sub_diag. cbn [repeat]. rewrite app_nil_r.
  rewrite skipn_app, skipn_all, Nat.sub_diag. reflexivity.
Qed.

(** X8.  What [sendMessage] writes for a well-formed message is read
    back by the peer's two reads as exactly the payload, which decodes
    to the message; the bytes behind the frame stay in the stream. *)
Theorem frame_roundtrip (m : UnityMessage) (indeterminate rest : list byte) :
  well_formed m ->
  receive indeterminate (frame_of m ++ rest) = (serialize m, rest)
  /\ deserialize (fst (receive indeterminate (frame_of m ++ rest))) = Ok m.
Proof.
  intros Hm.
  assert (E : receive indeterminate (frame_of m ++ rest) = (serialize m, rest)).
  { unfold frame_of. rewrite <- app_assoc.
    apply receive_frame. now apply serialize_fits_uint32. }
  split; [exact E|]. rewrite E. cbn [fst].
  rewrite <- (app_nil_r (serialize m)).
  now apply CodecFacts.deserialize_serialize_app.
Qed.

Lemma well_formed_pin_response (v : float) : well_formed (pin_response v).
Proof.
  unfold well_formed, pin_response. cbn [type pin error length].
  split; [unfold PIN_RESPONSE; lia|]. repeat split; lia.
Defined.

Lemma frame_roundtrip_witness :
  receive [] (frame_of (pin_response float_five) ++ [Byte.x09])
  = (serialize (pin_response float_five), [Byte.x09])
  /\ deserialize (fst (receive [] (frame_of (pin_response float_five)
                                     ++ [Byte.x09])))
     = Ok (pin_response float_five).
Proof.
  apply frame_roundtrip. apply well_formed_pin_response.
Defined.

(** X9.  Frames written back to back are read back one by one, in
    order: as many frame reads as there are messages give the payloads of
    the messages and leave what follows the last frame. *)
Theorem frames_are_read_in_order (ms : list UnityMessage)
  (indeterminate rest : list byte) :
  Forall well_formed ms ->
  receive_n (length ms) indeterminate (concat (map frame_of ms) ++ rest)
  = (map serialize ms, rest).
Proof.
  induction 1 as [|m ms Hm _ IH]; [reflexivity|].
  cbn [length map concat receive_n].
  unfold frame_of at 1. rewrite <- !app_assoc.
  rewrite receive_frame by now apply serialize_fits_uint32.
  rewrite IH. reflexivity.
Qed.

Lemma frames_are_read_in_order_witness :
  receive_n 2 []
    (concat (map frame_of [pin_response float_one; pin_response float_five])
     ++ [])
  = (map serialize [pin_response float_one; pin_response float_five], []).
Proof.
  apply (frames_are_read_in_order
           [pin_response float_one; pin_response float_five]).
  repeat constructor; apply well_formed_pin_response.
Defined.

(** X10.  A frame of which only the size prefix and the first [k >= 3]
    payload bytes have arrived is not refused: the vector is filled up
    with zero bytes to the announced size, and it decodes to a message of
    the announced type and pin length. *)
Theorem partial_frame_is_decoded (m : UnityMessage) (indeterminate : list byte)
  (k : nat) :
  well_formed m ->
  3 <= k <= length (serialize m) ->
  let data := fst (receive indeterminate (firstn (4 + k) (frame_of m))) in
  data = firstn k (serialize m) ++ repeat Byte.x00 (length (serialize m) - k)
  /\ exists msg,
       deserialize data = Ok msg
       /\ type msg = type m
       /\ length (pin msg) = length (pin m).
Proof.
  intros Hm Hk. cbv zeta.
  assert (E : fst (receive indeterminate (firstn (4 + k) (frame_of m)))
              = firstn k (serialize m)
                ++ repeat Byte.x00 (length (serialize m) - k)).
  { unfold frame_of. rewrite firstn_app.
    change (length (TCPClient.uint32_bytes (length (serialize m)))) with 4.
    replace (4 + k - 4) with k by lia.
    replace (firstn (4 + k) (TCPClient.uint32_bytes (length (serialize m))))
      with (TCPClient.uint32_bytes (length (serialize m)))
      by (symmetry; apply firstn_all2; cbn; lia).
    unfold receive, read_size, Read.
    change (firstn 4 (TCPClient.uint32_bytes (length (serialize m))
                      ++ firstn k (serialize m)))
      with (TCPClient.uint32_bytes (length (serialize m))).
    change (skipn 4 (TCPClient.uint32_bytes (length (serialize m))
                     ++ firstn k (serialize m)))
      with (firstn k (serialize m)).
    change (length (TCPClient.uint32_bytes (length (serialize m)))) with 4.
    rewrite skipn_firstn_comm. cbn [Nat.sub firstn]. rewrite app_nil_r.
    rewrite uint32_of_uint32_bytes by now apply serialize_fits_uint32.
    unfold read_vector, Read. cbn [fst].
    rewrite firstn_firstn, length_firstn.
    replace (Nat.min (length (serialize m)) k) with k by lia.
    replace (Nat.min k (length (serialize m))) with k by lia.
    reflexivity. }
  split; [exact E|]. rewrite E.
  destruct Hm as (Hty & Hpin & _ & _).
  pose proof (serialize_length m) as Hlen.
  revert Hk Hlen. rewrite serialize_layout.
  set (body := pin m ++ _). cbn [length].
  intros Hk Hlen.
  destruct k as [|[|[|k]]]; try lia. cbn [firstn app].
  rewrite deserialize_header.
  change (negb (Byte.to_nat Byte.x01 =? PROTOCOL_VERSION)) with false.
  cbv iota.
  rewrite uint8_of_nat_small by assumption.
  set (rest := firstn k body ++ _).
  assert (Hrest : length rest = length body).
  { subst rest. rewrite length_app, length_firstn, repeat_length. lia. }
  assert (Hbody : length (pin m) + 4 <= length body).
  { destruct (type m =? ERROR_STATE)%Z; lia. }
  replace (length rest <? length (pin m)) with false
    by (symmetry; apply Nat.ltb_ge; lia).
  replace (length rest <? length (pin m) + 4) with false
    by (symmetry; apply Nat.ltb_ge; lia).
  pose proof (length_skipn (length (pin m)) rest) as Hs.
  destruct (skipn (length (pin m)) rest) as [|b0 [|b1 [|b2 [|b3 tl]]]];
    cbn [length] in Hs; try lia.
  eexists. split; [reflexivity|]. cbn [type pin]. split.
  - rewrite Z_of_byte_uint8_of_Z. apply Z.mod_small. exact Hty.
  - rewrite length_firstn. lia.
Qed.

Lemma partial_frame_is_decoded_witness :
  let data := fst (receive [] (firstn (4 + 4)
                                 (frame_of (pin_response float_five)))) in
  data = firstn 4 (serialize (pin_response float_five))
         ++ repeat Byte.x00 (length (serialize (pin_response float_five)) - 4)
  /\ exists msg,
       deserialize data = Ok msg
       /\ type msg = PIN_RESPONSE
       /\ length (pin msg) = 0.
Proof.
  apply (partial_frame_is_decoded (pin_response float_five) [] 4).
  - apply well_formed_pin_response.
  - cbn. lia.
Defined.

End WireFacts.

(** ** The test server *)

Module ServerFacts.
Import Protocol ProtocolFacts Wire.

Lemma process_frame (indeterminate payload rest out : list byte)
  (w1 w2 : TCPClient.WriteOutcome) :
  length payload <= MAX_MESSAGE_SIZE ->
  TestServer.processClientMessage indeterminate w1 w2
    (TestServer.mk (TCPClient.uint32_bytes (length payload) ++ payload ++ rest)
       out)
  = Ok (TestServer.mk rest
          (out ++ match deserialize payload with
                  | Ok msg => if (type msg =? CONNECT)%Z
                              then server_reply w1 w2 else []
                  | _ => []
                  end)).
Proof.
  intros Hlen. unfold MAX_MESSAGE_SIZE in Hlen.
  pose proof (WireFacts.receive_frame indeterminate payload rest
                ltac:(lia)) as E.
  unfold receive in E.
  unfold TestServer.processClientMessage. cbn [TestServer.sock_in].
  destruct (read_size indeterminate _) as [msgSize rest1] eqn:Hsize.
  assert (Hm : msgSize = length payload).
  { unfold read_size, Read in Hsize.
    change (firstn 4 (TCPClient.uint32_bytes (length payload) ++ payload ++ rest))
      with (TCPClient.uint32_bytes (length payload)) in Hsize.
    change (length (TCPClient.uint32_bytes (length payload))) with 4 in Hsize.
    rewrite skipn_firstn_comm in Hsize. cbn [Nat.sub firstn] in Hsize.
    rewrite app_nil_r in Hsize.
    rewrite WireFacts.uint32_of_uint32_bytes in Hsize by lia.
    now injection Hsize as <- _. }
  subst msgSize.
  replace (MAX_MESSAGE_SIZE <? length payload) with false
    by (symmetry; apply Nat.ltb_ge; unfold MAX_MESSAGE_SIZE; lia).
  cbn [TestServer.sock_in TestServer.sock_out]. rewrite E.
  pose proof (deserialize_in_bounds payload) as Hb.
  destruct (deserialize payload) as [msg|e|]; cbn [bind try_catch].
  - destruct (type msg =? CONNECT)%Z; cbn [try_catch].
    + unfold TestServer.Write, server_reply.
      cbn [TestServer.sock_in TestServer.sock_out].
      rewrite <- app_assoc. reflexivity.
    + now rewrite app_nil_r.
  - now rewrite app_nil_r.
  - contradiction.
Qed.

(** X11.  The test server consumes exactly one frame of at most 1024
    payload bytes per call and leaves the rest of the stream; it writes a
    reply only when the payload decodes to a [CONNECT] message, and the
    reply, when both writes go through, is the frame of a pin response
    of value 1.0.  A payload that does not decode, or decodes to another
    type, is consumed without reply. *)
Theorem server_answers_connect_only (indeterminate payload rest out : list byte)
  (w1 w2 : TCPClient.WriteOutcome) :
  length payload <= MAX_MESSAGE_SIZE ->
  exists s,
    TestServer.processClientMessage indeterminate w1 w2
      (TestServer.mk (TCPClient.uint32_bytes (length payload) ++ payload ++ rest)
         out) = Ok s
    /\ TestServer.sock_in s = rest
    /\ ((forall msg, deserialize payload = Ok msg -> type msg <> CONNECT) ->
        TestServer.sock_out s = out)
    /\ (forall msg, deserialize payload = Ok msg -> type msg = CONNECT ->
        TCPClient.wr_count w1 = 4 -> TCPClient.wr_count w2 = 7 ->
        TestServer.sock_out s = out ++ frame_of (pin_response float_one)).
Proof.
  intros Hlen. eexists. split; [now apply process_frame|].
  cbn [TestServer.sock_in TestServer.sock_out]. split; [reflexivity|]. split.
  - intros Hno. destruct (deserialize payload) as [msg|e|];
      try apply app_nil_r.
    specialize (Hno msg eq_refl). apply Z.eqb_neq in Hno. rewrite Hno.
    apply app_nil_r.
  - intros msg -> Hty H1 H2. rewrite Hty. cbn [Z.eqb CONNECT].
    unfold server_reply. rewrite H1, H2. reflexivity.
Qed.

Lemma server_answers_connect_only_witness :
  exists s,
    TestServer.processClientMessage [] (TCPClient.mkWrite false 4)
      (TCPClient.mkWrite false 7)
      (TestServer.mk
         (TCPClient.uint32_bytes 7
          ++ serialize (UnityMessage.mk CONNECT [] float_zero []) ++ [])
         []) = Ok s
    /\ TestServer.sock_in s = []
    /\ ((forall msg,
            deserialize (serialize (UnityMessage.mk CONNECT [] float_zero []))
            = Ok msg -> type msg <> CONNECT) ->
        TestServer.sock_out s = [])
    /\ (forall msg,
           deserialize (serialize (UnityMessage.mk CONNECT [] float_zero []))
           = Ok msg -> type msg = CONNECT ->
           4 = 4 -> 7 = 7 ->
           TestServer.sock_out s = [] ++ frame_of (pin_response float_one)).
Proof.
  apply (server_answers_connect_only []
           (serialize (UnityMessage.mk CONNECT [] float_zero [])) [] []
           (TCPClient.mkWrite false 4) (TCPClient.mkWrite false 7)).
  apply Nat.leb_le. reflexivity.
Defined.

(** X12.  When the size prefix announces more than 1024 bytes the test
    server returns after reading the prefix only: nothing is written and
    the announced payload is still in the stream, where the next call
    will take its first four bytes for a size prefix. *)
Theorem server_leaves_oversized_payload (n : nat)
  (indeterminate payload out : list byte) (w1 w2 : TCPClient.WriteOutcome) :
  MAX_MESSAGE_SIZE < n ->
  (Z.of_nat n < 4294967296)%Z ->
  TestServer.processClientMessage indeterminate w1 w2
    (TestServer.mk (TCPClient.uint32_bytes n ++ payload) out)
  = Ok (TestServer.mk payload out).
Proof.
  intros Hn Hz. unfold TestServer.processClientMessage.
  cbn [TestServer.sock_in]. unfold read_size, Read.
  change (firstn 4 (TCPClient.uint32_bytes n ++ payload))
    with (TCPClient.uint32_bytes n).
  change (skipn 4 (TCPClient.uint32_bytes n ++ payload)) with payload.
  change (length (TCPClient.uint32_bytes n)) with 4.
  rewrite skipn_firstn_comm. cbn [Nat.sub firstn]. rewrite app_nil_r.
  rewrite WireFacts.uint32_of_uint32_bytes by assumption.
  apply Nat.ltb_lt in Hn. rewrite Hn. reflexivity.
Qed.

Lemma server_leaves_oversized_payload_witness :
  TestServer.processClientMessage [] (TCPClient.mkWrite false 4)
    (TCPClient.mkWrite false 7)
    (TestServer.mk (TCPClient.uint32_bytes 1025 ++ [Byte.x01]) [])
  = Ok (TestServer.mk [Byte.x01] []).
Proof.
  apply (server_leaves_oversized_payload 1025 [] [Byte.x01] []).
  - unfold MAX_MESSAGE_SIZE. lia.
  - lia.
Defined.

End ServerFacts.

(** ** More on the socket client *)

Module ClientFacts.
Import Protocol ProtocolFacts TCPClient ClientClaims.

Section WithOwner.
Context {W : Type}.
Implicit Types (c : TCPClient.t W) (w : W).

Lemma sendMessage_sock (msg : UnityMessage) (env : SendEnv) c :
  sock_connected (snd (sendMessage msg env c)) = sock_connected c
  /\ m_onData (snd (sendMessage msg env c)) = m_onData c.
Proof.
  unfold sendMessage.
  repeat match goal with
         | |- context [if ?b then _ else _] => destruct b
         end; cbn; auto.
Qed.

(** X13.  [sendMessage] reports success only for a frame written in
    full: when it returns [true], the socket has taken exactly the size
    prefix and the payload of the message after what it held before.  When
    it returns [false] the bytes written earlier are still there, with at
    most a part of the frame after them. *)
Theorem sendMessage_writes_whole_frame (msg : UnityMessage) (env : SendEnv) c :
  (fst (sendMessage msg env c) = true ->
   sock_connected c = true
   /\ sock_out (snd (sendMessage msg env c)) = sock_out c ++ frame_of msg)
  /\ exists part,
       sock_out (snd (sendMessage msg env c)) = sock_out c ++ part
       /\ length part <= length (frame_of msg).
Proof.
  unfold sendMessage, frame_of.
  destruct (sock_connected c); cbn [negb].
  2:{ split; [discriminate|]. exists []. rewrite app_nil_r. cbn. split; [reflexivity|lia]. }
  destruct (size_write env) as [e1 n1], (data_write env) as [e2 n2].
  cbn [wr_error wr_count].
  set (data := serialize msg).
  set (prefix := uint32_bytes (length data)).
  assert (Hp : length prefix = 4) by reflexivity.
  destruct (e1 || negb (n1 =? 4)) eqn:H1.
  - split; [discriminate|]. cbn [snd Write sock_out wr_count].
    exists (firstn n1 prefix). split; [reflexivity|].
    rewrite length_firstn, length_app. lia.
  - apply orb_false_elim in H1 as [_ H1]. apply negb_false_iff in H1.
    apply Nat.eqb_eq in H1. subst n1.
    destruct (e2 || negb (n2 =? length data)) eqn:H2.
    + split; [discriminate|]. cbn [snd Write sock_out wr_count].
      exists (firstn 4 prefix ++ firstn n2 data).
      split; [now rewrite app_assoc|].
      rewrite !length_app, !length_firstn. lia.
    + apply orb_false_elim in H2 as [_ H2]. apply negb_false_iff in H2.
      apply Nat.eqb_eq in H2. subst n2.
      cbn [fst snd Write sock_out wr_count].
      rewrite firstn_all. change (firstn 4 prefix) with prefix.
      split.
      * intros _. split; [reflexivity|]. now rewrite app_assoc.
      * exists (prefix ++ data). split; [now rewrite app_assoc|lia].
Qed.

(** The handshake flag is never set without the connected flag. *)
Definition flags_ordered c : Prop :=
  m_handshakeComplete c = true -> m_connected c = true.

Lemma dispatch_flags_ordered (msg : UnityMessage) c w :
  flags_ordered c -> flags_ordered (fst (dispatch msg c w)).
Proof.
  unfold flags_ordered, dispatch. intros H.
  repeat match goal with
         | |- context [if ?b then _ else _] => destruct b
         end; cbn [fst]; auto.
Qed.

Lemma notify_flags_ordered (event : wxSocketEvent) c w c' w' :
  flags_ordered c ->
  notify event c w = Ok (c', w') ->
  flags_ordered c'.
Proof.
  intros H E. destruct event as [env|data|].
  - cbn [notify onSocketEvent set_sock_connected sock_connected] in E.
    injection E as <- _. unfold flags_ordered.
    destruct (sendMessage_flags
                (UnityMessage.mk CONNECT [] (indeterminate_value env) []) env
                (set_sock_connected true c)) as [-> ->].
    exact H.
  - destruct (sock_connected c) eqn:Hs.
    + destruct (notify_input data c w Hs) as [c1 [w1 [E1 E2]]].
      rewrite E2 in E. injection E as <- _.
      destruct (m_handshakeComplete c1) eqn:H1; [|intros _; reflexivity].
      destruct (handleIncomingData_cases data c w c1 w1 E1)
        as [[msg [_ E3]]|[e [_ [-> _]]]]; [|exact H].
      pose proof (dispatch_flags_ordered msg c w H) as H'.
      now rewrite E3 in H'.
    + cbn [notify onSocketEvent] in E. rewrite Hs in E.
      now injection E as <- _.
  - cbn in E. injection E as <- _. intros H'. discriminate H'.
Qed.

Lemma yield_flags_ordered (pending : list wxSocketEvent) c w c' w' :
  flags_ordered c ->
  yield pending c w = Ok (c', w') ->
  flags_ordered c'.
Proof.
  revert c w. induction pending as [|event rest IH]; intros c w H E.
  - cbn in E. now injection E as <- _.
  - cbn [yield] in E.
    destruct (notify_returns event c w) as [c1 [w1 E1]].
    rewrite E1 in E. cbn [bind fst snd] in E.
    apply (IH c1 w1); [|exact E].
    now apply (notify_flags_ordered event c w c1 w1).
Qed.

Lemma yield_returns (pending : list wxSocketEvent) c w :
  exists c' w', yield pending c w = Ok (c', w').
Proof.
  revert c w. induction pending as [|event rest IH]; intros c w.
  - cbn. eauto.
  - cbn [yield]. destruct (notify_returns event c w) as [c1 [w1 E1]].
    rewrite E1. cbn [bind fst snd]. apply IH.
Qed.

Lemma wait_loop_spec (rounds : list (list wxSocketEvent)) c w :
  flags_ordered c ->
  exists c' w',
    wait_loop rounds c w = Ok (c', w')
    /\ flags_ordered c'
    /\ (forallb (forallb (fun event => negb (is_input event))) rounds = true ->
        m_handshakeComplete c = false ->
        m_handshakeComplete c' = false).
Proof.
  revert c w. induction rounds as [|pending rest IH]; intros c w H.
  - exists c, w. cbn [wait_loop].
    destruct (m_handshakeComplete c); auto.
  - cbn [wait_loop].
    destruct (m_handshakeComplete c) eqn:Hh.
    + exists c, w. split; [reflexivity|]. split; [exact H|].
      intros _ Hf. discriminate Hf.
    + destruct (yield_returns pending c w) as [c1 [w1 E1]].
      rewrite E1. cbn [bind fst snd].
      pose proof (yield_flags_ordered pending c w c1 w1 H E1) as H1.
      destruct (IH c1 w1 H1) as [c' [w' [E [Ho Hno]]]].
      exists c', w'. split; [exact E|]. split; [exact Ho|].
      cbn [forallb]. intros Hall _.
      apply andb_true_iff in Hall as [Hp Hr].
      apply Hno; [exact Hr|].
      now apply (yield_other_keeps_handshake pending c w c1 w1).
Qed.

(** X14.  [waitForConnection] always returns; the value it returns is
    the handshake flag of the client it leaves; when it returns [true]
    the connected flag is set too, so the next [sendPinRequest] passes
    its guard; and when no input notification arrives in any round it
    returns [false]. *)
Theorem waitForConnection_result (rounds : list (list wxSocketEvent)) c w :
  exists c' w',
    waitForConnection rounds c w = Ok (m_handshakeComplete c', (c', w'))
    /\ (m_handshakeComplete c' = true -> m_connected c' = true)
    /\ (forallb (forallb (fun event => negb (is_input event))) rounds = true ->
        m_handshakeComplete c' = false).
Proof.
  unfold waitForConnection.
  destruct (wait_loop_spec rounds (set_m_handshakeComplete false c) w)
    as [c' [w' [E [Ho Hno]]]].
  { intros H. discriminate H. }
  exists c', w'. rewrite E. cbn [bind fst snd].
  split; [reflexivity|]. split; [exact Ho|].
  intros Hall. now apply Hno.
Qed.

Lemma notify_stale (event : wxSocketEvent) c w c' w' :
  is_lost event = false ->
  m_handshakeComplete c = true ->
  m_connected c = false ->
  notify event c w = Ok (c', w') ->
  m_handshakeComplete c' = true /\ m_connected c' = false.
Proof.
  intros Hev Hh Hc E. destruct event as [env|data|]; [| |discriminate Hev].
  - cbn [notify onSocketEvent set_sock_connected sock_connected] in E.
    injection E as <- _.
    destruct (sendMessage_flags
                (UnityMessage.mk CONNECT [] (indeterminate_value env) []) env
                (set_sock_connected true c)) as [-> ->].
    auto.
  - destruct (sock_connected c) eqn:Hs.
    + destruct (notify_input data c w Hs) as [c1 [w1 [E1 E2]]].
      rewrite E2 in E. injection E as <- _.
      assert (H1 : m_handshakeComplete c1 = true /\ m_connected c1 = false).
      { destruct (handleIncomingData_cases data c w c1 w1 E1)
          as [[msg [_ E3]]|[e [_ [-> _]]]]; [|auto].
        revert E3. unfold dispatch. rewrite Hh, Hc. cbn [negb andb].
        repeat match goal with
               | |- context [if ?b then _ else _] => destruct b
               end; intros E3; injection E3 as <- _; auto. }
      destruct H1 as [H1 H2]. now rewrite H1.
    + cbn [notify onSocketEvent] in E. rewrite Hs in E.
      injection E as <- _. auto.
Qed.

(** X15.  [disconnect] clears the connected flag but not the handshake
    flag.  After it, a new [connect] and any notifications short of a
    lost connection leave the client with the handshake flag set and the
    connected flag clear, so that no input sets the connected flag again
    and every [sendPinRequest] is refused. *)
Theorem disconnect_leaves_handshake_flag (pending : list wxSocketEvent)
  c w c' w' :
  m_connected c = true ->
  m_handshakeComplete c = true ->
  forallb (fun event => negb (is_lost event)) pending = true ->
  yield pending (snd (connect (disconnect c))) w = Ok (c', w') ->
  m_handshakeComplete c' = true
  /\ m_connected c' = false
  /\ forall pin env, sendPinRequest pin env c' = (false, c').
Proof.
  intros Hc Hh Hall E.
  assert (H0 : m_handshakeComplete (snd (connect (disconnect c))) = true
               /\ m_connected (snd (connect (disconnect c))) = false).
  { unfold connect, disconnect. rewrite Hc. cbn. auto. }
  revert H0 E. generalize (snd (connect (disconnect c))). clear Hc Hh.
  revert w. induction pending as [|event rest IH]; intros w c0 [H1 H2] E.
  - cbn in E. injection E as <- _. split; [exact H1|]. split; [exact H2|].
    intros pin env. unfold sendPinRequest. now rewrite H2.
  - cbn [forallb] in Hall. apply andb_true_iff in Hall as [Hev Hrest].
    apply negb_true_iff in Hev. cbn [yield] in E.
    destruct (notify_returns event c0 w) as [c1 [w1 E1]].
    rewrite E1 in E. cbn [bind fst snd] in E.
    apply (IH Hrest w1 c1); [|exact E].
    now apply (notify_stale event c0 w c1 w1).
Qed.

(** X16.  One notification invokes the data callback at most once, and
    only an input notification on a connected socket invokes it at all:
    the owner's state afterwards is the state before, or the result of
    one call of the installed callback on it. *)
Theorem notify_calls_back_at_most_once (event : wxSocketEvent) c w :
  exists c' w',
    notify event c w = Ok (c', w')
    /\ (w' = w \/ exists v, w' = call_onData c v w)
    /\ (is_input event = false \/ sock_connected c = false -> w' = w).
Proof.
  destruct event as [env|data|].
  - cbn [notify onSocketEvent set_sock_connected sock_connected].
    eexists _, w. split; [reflexivity|]. auto.
  - destruct (sock_connected c) eqn:Hs.
    + destruct (notify_input data c w Hs) as [c1 [w1 [E1 E2]]].
      rewrite E2. eexists _, w1. split; [reflexivity|]. split.
      * destruct (handleIncomingData_cases data c w c1 w1 E1)
          as [[msg [_ E3]]|[e [_ [_ ->]]]]; [|now left].
        revert E3. unfold dispatch.
        repeat match goal with
               | |- context [if ?b then _ else _] => destruct b
               end; intros E3; injection E3 as _ <-; eauto.
      * intros [H|H]; discriminate H.
    + cbn [notify onSocketEvent]. rewrite Hs. exists c, w. auto.
  - cbn. eexists _, w. split; [reflexivity|]. auto.
Qed.

End WithOwner.

Lemma sendMessage_writes_whole_frame_witness :
  sock_connected awaiting_handshake = true
  /\ sock_out (snd (sendMessage (pin_response float_five)
                      (writes_ok []) awaiting_handshake))
     = sock_out awaiting_handshake ++ frame_of (pin_response float_five).
Proof.
  apply (proj1 (sendMessage_writes_whole_frame (pin_response float_five)
                  (writes_ok []) awaiting_handshake)).
  reflexivity.
Defined.

Lemma disconnect_leaves_handshake_flag_witness :
  sendPinRequest pin_1234 (writes_ok pin_1234)
    (TCPClient.mk true (frame_of (connect_message (writes_ok []))) false true
       (@None (DataCallback (list float))))
  = (false,
     TCPClient.mk true (frame_of (connect_message (writes_ok []))) false true
       (@None (DataCallback (list float)))).
Proof.
  exact (proj2 (proj2
    (disconnect_leaves_handshake_flag
       [wxSOCKET_CONNECTION (writes_ok [])]
       (TCPClient.mk true [] true true None) []
       (TCPClient.mk true (frame_of (connect_message (writes_ok []))) false true
          None) []
       eq_refl eq_refl eq_refl eq_refl)) pin_1234 (writes_ok pin_1234)).
Defined.

End ClientFacts.

(** ** Client and test server together *)

Module HandshakeFacts.
Import Protocol ProtocolFacts TCPClient ClientClaims.

(** X17.  The handshake against the test server.  A client with nothing
    written yet and a clear handshake flag gets the connection
    notification and writes its [CONNECT] frame; the test server, reading
    those bytes, consumes them all and writes its reply; the client,
    reading the reply on the input notification, ends with both flags set
    and without having called the data callback. *)
Theorem handshake_with_test_server {W : Type} (c : TCPClient.t W) (w : W)
  (env : SendEnv) (w1 w2 : WriteOutcome) (i1 i2 : list byte) :
  sock_out c = [] ->
  m_handshakeComplete c = false ->
  writes_succeed 7 env ->
  wr_count w1 = 4 -> wr_count w2 = 7 ->
  exists c1 server c2,
    notify (wxSOCKET_CONNECTION env) c w = Ok (c1, w)
    /\ sock_out c1 = frame_of (connect_message env)
    /\ TestServer.processClientMessage i1 w1 w2
         (TestServer.mk (sock_out c1) []) = Ok server
    /\ TestServer.sock_in server = []
    /\ TestServer.sock_out server = frame_of (pin_response float_one)
    /\ notify (wxSOCKET_INPUT
                 (fst (Wire.receive i2 (TestServer.sock_out server)))) c1 w
       = Ok (c2, w)
    /\ m_connected c2 = true
    /\ m_handshakeComplete c2 = true.
Proof.
  intros Hout Hh Hw H1 H2.
  set (c0 := set_sock_connected true c).
  destruct (sendMessage_succeeds (connect_message env) env c0 eq_refl Hw)
    as [c1 [Es Eo]].
  assert (Hc1 : snd (sendMessage (connect_message env) env c0) = c1)
    by now rewrite Es.
  assert (Hs1 : sock_connected c1 = true).
  { rewrite <- Hc1.
    now rewrite (proj1 (ClientFacts.sendMessage_sock _ _ _)). }
  assert (Hh1 : m_handshakeComplete c1 = false).
  { rewrite <- Hc1. now rewrite (proj1 (sendMessage_flags _ _ _)). }
  assert (Eo' : sock_out c1 = frame_of (connect_message env)).
  { rewrite Eo. subst c0. cbn [sock_out set_sock_connected].
    now rewrite Hout. }
  pose proof (ServerFacts.process_frame i1 (serialize (connect_message env))
                [] [] w1 w2 ltac:(apply Nat.leb_le; reflexivity)) as Ep.
  rewrite app_nil_r in Ep.
  change (TCPClient.uint32_bytes (length (serialize (connect_message env)))
          ++ serialize (connect_message env))
    with (frame_of (connect_message env)) in Ep.
  assert (Ed : deserialize (serialize (connect_message env))
               = Ok (connect_message env)).
  { rewrite <- (app_nil_r (serialize (connect_message env))).
    apply CodecFacts.deserialize_serialize_app.
    unfold well_formed, connect_message. cbn [type pin error length].
    split; [unfold CONNECT; lia|]. repeat split; lia. }
  rewrite Ed in Ep.
  cbn [type connect_message Z.eqb CONNECT app] in Ep.
  assert (Er : server_reply w1 w2 = frame_of (pin_response float_one)).
  { unfold server_reply. rewrite H1, H2. reflexivity. }
  rewrite Er in Ep.
  exists c1. eexists.
  exists (set_m_handshakeComplete true (set_m_connected true c1)).
  split.
  { cbn [notify onSocketEvent]. fold c0. cbn [sock_connected c0 set_sock_connected].
    change (UnityMessage.mk CONNECT [] (indeterminate_value env) [])
      with (connect_message env).
    now rewrite Hc1. }
  split; [exact Eo'|]. rewrite Eo'.
  split; [exact Ep|]. cbn [TestServer.sock_in TestServer.sock_out].
  split; [reflexivity|]. split; [reflexivity|].
  split; [|split; reflexivity].
  pose proof (WireFacts.receive_frame i2 (serialize (pin_response float_one))
                [] ltac:(cbn; lia)) as Er2.
  rewrite app_nil_r in Er2.
  change (TCPClient.uint32_bytes (length (serialize (pin_response float_one)))
          ++ serialize (pin_response float_one))
    with (frame_of (pin_response float_one)) in Er2.
  rewrite Er2. cbn [fst notify onSocketEvent]. rewrite Hs1.
  unfold handleIncomingData.
  change (deserialize (serialize (pin_response float_one)))
    with (Ok (pin_response float_one)).
  cbn [bind try_catch]. unfold dispatch.
  cbn [type pin_response Z.eqb PIN_RESPONSE ERROR_STATE Pos.eqb].
  rewrite Hh1. cbn [negb fst snd bind try_catch
                     m_handshakeComplete set_m_handshakeComplete].
  reflexivity.
Qed.

Lemma handshake_with_test_server_witness :
  exists c1 server c2,
    notify (wxSOCKET_CONNECTION (writes_ok []))
      (TCPClient.new (W:=list float) false) []
    = Ok (c1, [])
    /\ sock_out c1 = frame_of (connect_message (writes_ok []))
    /\ TestServer.processClientMessage [] (mkWrite false 4) (mkWrite false 7)
         (TestServer.mk (sock_out c1) []) = Ok server
    /\ TestServer.sock_in server = []
    /\ TestServer.sock_out server = frame_of (pin_response float_one)
    /\ notify (wxSOCKET_INPUT
                 (fst (Wire.receive [] (TestServer.sock_out server)))) c1 []
       = Ok (c2, [])
    /\ m_connected c2 = true
    /\ m_handshakeComplete c2 = true.
Proof.
  apply (handshake_with_test_server (TCPClient.new false) []
           (writes_ok []) (mkWrite false 4) (mkWrite false 7) [] []);
    try reflexivity.
  split; reflexivity.
Defined.

End HandshakeFacts.

(** ** More on the sensor *)

Module SensorFacts.
Import Sensor.

Lemma updateValues_app (values : list float) (v : float) (s : Sensor.t) :
  updateValues (values ++ [v]) s = updateValue v (updateValues values s).
Proof. unfold updateValues. now rewrite fold_left_app. Qed.

(** X18.  After any sequence of readings the last value is the newest
    reading and it is the last element of the history; readings change
    neither the pin nor the connected flag. *)
Theorem last_value_is_newest_reading (values : list float) (v : float)
  (s : Sensor.t) :
  let s' := updateValues (values ++ [v]) s in
  getLastValue s' = v
  /\ last (getHistory s') float_zero = v
  /\ getPin s' = getPin s
  /\ isConnected s' = isConnected s.
Proof.
  cbv zeta. rewrite updateValues_app.
  unfold getLastValue, getHistory, getPin, isConnected.
  cbn [updateValue m_lastValue m_history m_pin m_connected].
  split; [reflexivity|]. split; [apply last_last|].
  clear v. induction values as [|x values IH] using rev_ind; [now split|].
  rewrite updateValues_app. exact IH.
Qed.

Import TCPClient.

Lemma link_ok_new (pin : list byte) (flag : bool) :
  link_ok (SensorLink.new pin flag).
Proof. intros H. discriminate H. Defined.

(** X19.  [Sensor::connect] never succeeds: the client's connected flag
    is only set by a later input notification, and [connect] clears it
    together with the socket, so the pin request that follows at once is
    refused.  It returns [false] and the sensor's connected flag is
    unchanged, in the new sensor and in every state that [connect],
    [disconnect] and socket notifications lead to from it. *)
Theorem sensor_connect_never_succeeds (env : SendEnv) (l : SensorLink.t) :
  link_ok l ->
  fst (SensorLink.connect env l) = false
  /\ SensorLink.sensor (snd (SensorLink.connect env l)) = SensorLink.sensor l
  /\ link_ok (snd (SensorLink.connect env l))
  /\ link_ok (SensorLink.disconnect l)
  /\ forall event l', SensorLink.notify event l = Ok l' -> link_ok l'.
Proof.
  unfold link_ok. destruct l as [s c]. cbn [SensorLink.m_client].
  intros H.
  assert (Hc : m_connected (snd (connect c)) = false
               /\ sock_connected (snd (connect c)) = false).
  { unfold connect, disconnect. cbn [snd].
    destruct (sock_connected c) eqn:Hs, (m_connected c) eqn:Hm; cbn;
      rewrite ?Hm; auto.
    specialize (H eq_refl). discriminate H. }
  destruct Hc as [Hc Hs].
  unfold SensorLink.connect. cbn [SensorLink.m_client SensorLink.sensor].
  destruct (connect c) as [connected c1] eqn:E. cbn [snd] in Hc, Hs.
  assert (connected = true) as -> by (unfold connect in E; now injection E).
  cbn [negb]. unfold sendPinRequest. rewrite Hc. cbn [negb orb fst snd].
  cbn [SensorLink.m_client SensorLink.sensor].
  split; [reflexivity|]. split; [reflexivity|].
  split; [intros H'; congruence|]. split.
  - unfold SensorLink.disconnect, disconnect.
    cbn [SensorLink.m_client SensorLink.sensor].
    destruct (m_connected c) eqn:Hm; cbn; [discriminate|].
    rewrite Hm. discriminate.
  - intros event l'. unfold SensorLink.notify.
    cbn [SensorLink.m_client SensorLink.sensor].
    destruct event as [env'|data|].
    + cbn [notify onSocketEvent set_sock_connected sock_connected bind fst snd].
      intros E'. injection E' as <-. cbn [SensorLink.m_client]. intros _.
      now rewrite (proj1 (ClientFacts.sendMessage_sock _ _ _)).
    + destruct (sock_connected c) eqn:Hsc.
      * destruct (ClientClaims.notify_input data c s Hsc) as [c2 [w2 [E1 E2]]].
        rewrite E2. cbn [bind fst snd]. intros E'. injection E' as <-.
        cbn [SensorLink.m_client]. intros _.
        assert (Hs2 : sock_connected c2 = true).
        { destruct (ClientClaims.handleIncomingData_cases data c s c2 w2 E1)
            as [[msg [_ E3]]|[e [_ [-> _]]]]; [|exact Hsc].
          pose proof (proj1 (ClientClaims.dispatch_sock msg c s)) as Hd.
          rewrite E3 in Hd. cbn [fst] in Hd. now rewrite Hd. }
        destruct (m_handshakeComplete c2); exact Hs2.
      * cbn [notify onSocketEvent]. rewrite Hsc. cbn [bind fst snd].
        intros E'. injection E' as <-. cbn [SensorLink.m_client].
        rewrite Hsc. exact H.
    + cbn. intros E'. injection E' as <-. cbn. discriminate.
Qed.

Lemma sensor_connect_never_succeeds_witness :
  fst (SensorLink.connect (writes_ok pin_1234) (SensorLink.new pin_1234 true))
  = false.
Proof.
  exact (proj1 (sensor_connect_never_succeeds (writes_ok pin_1234)
                  (SensorLink.new pin_1234 true)
                  (link_ok_new pin_1234 true))).
Defined.

End SensorFacts.

(** ** More on the window's registry *)

Module FrameFacts.
Import Protocol ProtocolFacts TCPClient MainFrame MainFrameEvents ClientClaims.

Lemma socketEvent_returns (i : nat) (event : wxSocketEvent) (f : MainFrame.t) :
  exists f',
    socketEvent i event f = Ok f'
    /\ m_sensors f' = m_sensors f
    /\ dialogs f' = dialogs f
    /\ m_selectedSensor f' = m_selectedSensor f
    /\ m_isRecording f' = m_isRecording f
    /\ m_graphPanel f' = m_graphPanel f
    /\ length (m_clients f') = length (m_clients f).
Proof.
  unfold socketEvent.
  destruct (nth_error (m_clients f) i) as [c|] eqn:Hc.
  - destruct (notify_returns event c (events f)) as [c' [w' E]].
    rewrite E. cbn [bind fst snd]. eexists. split; [reflexivity|].
    cbn. repeat split.
    clear. revert i. induction (m_clients f) as [|x l IH]; intros [|i];
      cbn; auto.
  - exists f. repeat split.
Qed.

Lemma onConnect_returns (pin : list byte) (env : ConnectEnv) (f : MainFrame.t) :
  exists f',
    onConnect pin env f = Ok f'
    /\ m_sensors f' = m_sensors f
    /\ m_selectedSensor f' = m_selectedSensor f
    /\ m_isRecording f' = m_isRecording f
    /\ m_graphPanel f' = m_graphPanel f.
Proof.
  unfold onConnect.
  destruct (bytes_eqb pin []); [eexists; split; [reflexivity|]; now cbn|].
  destruct (find (has_pin pin) (m_sensors f));
    [eexists; split; [reflexivity|]; now cbn|].
  set (client := setDataCallback _ _).
  destruct (connect client) as [connected client1] eqn:Ec.
  assert (connected = true) as -> by (unfold connect in Ec; now injection Ec).
  unfold waitForConnection.
  destruct (ClientFacts.wait_loop_spec (rounds env)
              (set_m_handshakeComplete false client1) (events f))
    as [c' [w' [E _]]].
  { intros H. discriminate H. }
  rewrite E. cbn [bind fst snd negb orb].
  destruct (m_handshakeComplete c'); cbn [negb];
    [|eexists; split; [reflexivity|]; now cbn].
  destruct (sendPinRequest pin (pin_send env) c') as [sent c''].
  destruct sent; cbn [negb try_catch];
    eexists; (split; [reflexivity|]); now cbn.
Qed.

Lemma map_getPin_update_first (pin : list byte) (v : float) (l : list Sensor.t) :
  map Sensor.getPin (update_first pin v l) = map Sensor.getPin l.
Proof.
  induction l as [|s l IH]; [reflexivity|]. cbn [update_first].
  destruct (has_pin pin s); cbn [map]; [reflexivity|]. now rewrite IH.
Qed.

Lemma find_has_pin_none (pin : list byte) (l : list Sensor.t) :
  find (has_pin pin) l = None <-> ~ In pin (map Sensor.getPin l).
Proof.
  induction l as [|s l IH]; cbn [find map In]; [tauto|].
  unfold has_pin at 1. destruct (bytes_eqb (Sensor.getPin s) pin) eqn:E.
  - apply bytes_eqb_eq in E. split; [discriminate|]. intros H. tauto.
  - rewrite IH. split; [|tauto].
    intros H [H'|H']; [|tauto].
    rewrite H', bytes_eqb_refl in E. discriminate E.
Qed.

(** What [onSensorUpdate] does to the list of pins: nothing, or one new
    pin at the end that was not there. *)
Lemma onSensorUpdate_pins (evt : ThreadEvent) (f : MainFrame.t) :
  pins (onSensorUpdate evt f) = pins f
  \/ (pins (onSensorUpdate evt f) = pins f ++ [fst evt]
      /\ ~ In (fst evt) (pins f)).
Proof.
  unfold onSensorUpdate, pins.
  destruct (float_eq_const (snd evt) float_neg_one); [now left|].
  destruct (float_eq_const (snd evt) float_thousand).
  - destruct (find (has_pin (fst evt)) (m_sensors f)) eqn:E; [now left|].
    right. cbn [m_sensors with_sensors]. rewrite map_app. split; [reflexivity|].
    now apply find_has_pin_none.
  - left. unfold onSensorData.
    destruct (find (has_pin (fst evt)) (m_sensors f)); [|reflexivity].
    cbv zeta.
    match goal with
    | |- context [if ?b then _ else _] => destruct b
    end; cbn [m_sensors addPoint with_sensors]; apply map_getPin_update_first.
Qed.

Lemma handle_pins (event : Event) (f : MainFrame.t) :
  exists f',
    handle event f = Ok f'
    /\ (pins f' = pins f
        \/ exists pin, pins f' = pins f ++ [pin] /\ ~ In pin (pins f)).
Proof.
  destruct event as [pin env|i e| | |pressed|selection]; cbn [handle].
  - destruct (onConnect_returns pin env f) as [f' [E [Hs _]]].
    exists f'. split; [exact E|]. left. unfold pins. now rewrite Hs.
  - destruct (socketEvent_returns i e f) as [f' [E [Hs _]]].
    exists f'. split; [exact E|]. left. unfold pins. now rewrite Hs.
  - eexists. split; [reflexivity|]. unfold processThreadEvent.
    destruct (events f) as [|evt rest]; [now left|].
    destruct (onSensorUpdate_pins evt (with_events rest f)) as [H|[H1 H2]].
    + left. exact H.
    + right. exists (fst evt). split; [exact H1|exact H2].
  - eexists. split; [reflexivity|]. left. unfold onTimer, pins.
    destruct (negb _); reflexivity.
  - eexists. split; [reflexivity|]. left. unfold onRecordToggle, pins.
    cbn [m_isRecording with_recording].
    destruct pressed; [|reflexivity].
    destruct (_ || _); reflexivity.
  - eexists. split; [reflexivity|]. now left.
Qed.

Lemma run_pins (events : list Event) (f : MainFrame.t) :
  exists f' more,
    run events f = Ok f'
    /\ pins f' = pins f ++ more
    /\ (NoDup (pins f) -> NoDup (pins f')).
Proof.
  revert f. induction events as [|event rest IH]; intros f.
  - exists f, []. cbn. rewrite app_nil_r. auto.
  - cbn [run]. destruct (handle_pins event f) as [f1 [E H]].
    rewrite E. cbn [bind].
    destruct (IH f1) as [f' [more [E' [Hp Hn]]]].
    destruct H as [H|[pin [H Hnot]]].
    + exists f', more. rewrite <- H. auto.
    + exists f', (pin :: more). split; [exact E'|]. split.
      * rewrite Hp, H, <- app_assoc. reflexivity.
      * intros Hnd. apply Hn. rewrite H.
        apply NoDup_app; [exact Hnd|repeat constructor; auto|].
        intros x Hx [<-|[]]. contradiction.
Qed.

(** X20.  No sequence of operator actions, socket notifications, thread
    events and timer ticks makes a handler of the frame raise a protocol
    error or read outside a buffer: every run returns a frame. *)
Theorem frame_handlers_never_throw (events : list Event) (f : MainFrame.t) :
  exists f', run events f = Ok f'.
Proof.
  destruct (run_pins events f) as [f' [_ [E _]]]. now exists f'.
Qed.

(** X21.  No two registered sensors share a pin: starting from the new
    frame, whatever its recording flag holds and whatever happens, the
    pins of the sensors are pairwise distinct. *)
Theorem registered_pins_are_distinct (recording : bool) (events : list Event)
  (f : MainFrame.t) :
  run events (MainFrame.new recording) = Ok f ->
  NoDup (pins f).
Proof.
  intros E.
  destruct (run_pins events (MainFrame.new recording)) as [f' [more [E' [_ H]]]].
  rewrite E in E'. injection E' as <-. apply H. constructor.
Qed.

Lemma registered_pins_are_distinct_witness :
  match run two_authorizations (MainFrame.new false) with
  | Ok f => NoDup (pins f)
  | _ => False
  end.
Proof.
  destruct (run_pins two_authorizations (MainFrame.new false))
    as [f [more [E _]]].
  rewrite E. exact (registered_pins_are_distinct false two_authorizations f E).
Defined.

(** X22.  A registration is permanent.  Once a sensor is registered for
    a pin, it stays registered through every later event, the loss and
    pruning of its connection included, and [onConnect] for that pin keeps
    answering "Sensor already connected" without creating a client. *)
Theorem registration_is_permanent (pin : list byte) (events : list Event)
  (f f' : MainFrame.t) (env : ConnectEnv) :
  pin <> [] ->
  In pin (pins f) ->
  run events f = Ok f' ->
  In pin (pins f')
  /\ exists f'',
       onConnect pin env f' = Ok f''
       /\ m_clients f'' = m_clients f'
       /\ dialogs f'' = dialogs f' ++ ["Sensor already connected"%string].
Proof.
  intros Hpin Hin E.
  destruct (run_pins events f) as [f1 [more [E1 [Hp _]]]].
  rewrite E in E1. injection E1 as <-.
  assert (Hin' : In pin (pins f')) by (rewrite Hp; apply in_or_app; now left).
  split; [exact Hin'|].
  unfold onConnect.
  destruct (bytes_eqb pin []) eqn:He.
  { apply bytes_eqb_eq in He. contradiction. }
  destruct (find (has_pin pin) (m_sensors f')) eqn:Hf.
  - eexists. split; [reflexivity|]. split; reflexivity.
  - apply find_has_pin_none in Hf. contradiction.
Qed.

Lemma registration_is_permanent_witness :
  In pin_1234 (pins (MainFrame.mk (m_sensors frame_streaming) []
                       (-1)%Z false [] [] []))
  /\ exists f'',
       onConnect pin_1234 no_events
         (MainFrame.mk (m_sensors frame_streaming) [] (-1)%Z false [] [] [])
       = Ok f''
       /\ m_clients f'' = []
       /\ dialogs f'' = [] ++ ["Sensor already connected"%string].
Proof.
  apply (registration_is_permanent pin_1234 lost_and_pruned frame_streaming
           (MainFrame.mk (m_sensors frame_streaming) [] (-1)%Z false [] [] [])
           no_events).
  - discriminate.
  - left. reflexivity.
  - reflexivity.
Defined.

(** X23.  [checkServerConnection] keeps exactly the clients flagged
    connected, in their order: every client stays or goes by its own flag,
    and one that stays keeps its place between what stays of the clients
    before it and of the clients after it; so every connected client is
    kept, as many clients go as are not connected, a list of connected
    clients is left as it is, and all remaining clients are connected.
    Doing it twice changes nothing more; it does not change the answer of
    [isServerConnected]; and it never touches the sensors, so the sensor
    of a removed client stays registered.  [onTimer] leaves recording on
    only while some client is connected. *)
Theorem prune_keeps_connected_clients (f : MainFrame.t) :
  let f' := checkServerConnection f in
  let pruned l := m_clients (checkServerConnection (with_clients l f)) in
  Forall (fun c => isConnected c = true) (m_clients f')
  /\ (forall before c after,
        m_clients f = before ++ c :: after ->
        m_clients f'
        = pruned before ++ (if isConnected c then [c] else []) ++ pruned after)
  /\ (forall c, In c (m_clients f) -> isConnected c = true ->
                In c (m_clients f'))
  /\ length (m_clients f')
     + length (filter (fun c => negb (isConnected c)) (m_clients f))
     = length (m_clients f)
  /\ (Forall (fun c => isConnected c = true) (m_clients f) -> f' = f)
  /\ checkServerConnection f' = f'
  /\ isServerConnected f' = isServerConnected f
  /\ (isServerConnected f = false -> m_clients f' = [])
  /\ m_sensors f' = m_sensors f
  /\ m_isRecording (onTimer f) = m_isRecording f && isServerConnected f.
Proof.
  cbv zeta. unfold checkServerConnection, isServerConnected, onTimer.
  cbn [m_clients with_clients m_sensors].
  assert (Hfilter : forall l : list Client,
             filter isConnected (filter isConnected l) = filter isConnected l).
  { induction l as [|c l IH]; [reflexivity|]. cbn [filter].
    destruct (isConnected c) eqn:E; cbn [filter]; rewrite ?E, IH; reflexivity. }
  assert (Hex : forall l : list Client,
             existsb isConnected (filter isConnected l) = existsb isConnected l).
  { induction l as [|c l IH]; [reflexivity|]. cbn [filter existsb].
    destruct (isConnected c) eqn:E; cbn [existsb]; rewrite ?E, IH; reflexivity. }
  split.
  { apply Forall_forall. intros c Hc. now apply filter_In in Hc. }
  split.
  { intros before c after ->. rewrite filter_app. cbn [filter].
    destruct (isConnected c); reflexivity. }
  split.
  { intros c Hin Hc. apply filter_In. now split. }
  split.
  { induction (m_clients f) as [|c l IH]; [reflexivity|]. cbn [filter].
    destruct (isConnected c); cbn [negb length]; lia. }
  split.
  { intros Hall. destruct f as [ss cs sel rec gp ds ev]. unfold with_clients.
    cbn in *. f_equal.
    induction cs as [|c l IH]; [reflexivity|]. cbn [filter].
    inversion Hall as [|? ? Hc Hl]; subst. rewrite Hc. f_equal. now apply IH. }
  split; [unfold with_clients; cbn; now rewrite Hfilter|].
  split; [apply Hex|]. split.
  { induction (m_clients f) as [|c l IH]; [reflexivity|].
    cbn [existsb filter]. destruct (isConnected c); [discriminate|exact IH]. }
  split; [reflexivity|].
  unfold checkServerConnection, isServerConnected.
  cbn [m_clients with_clients]. rewrite Hex.
  destruct (existsb isConnected (m_clients f)); cbn;
    [now rewrite andb_true_r|now rewrite andb_false_r].
Qed.

Lemma with_events_nil (f : MainFrame.t) (q : EventQueue) :
  events f = [] -> with_events [] (with_events q f) = f.
Proof. destruct f. cbn. now intros ->. Qed.

(** The input notification that delivers a sensor reading to a client
    past its handshake queues one thread event with the reading. *)
Lemma sensor_data_queues_one_event (pin : list byte) (i : nat)
  (f : MainFrame.t) (data : list byte) (msg : UnityMessage) :
  listening pin i f ->
  deserialize data = Ok msg ->
  type msg = SENSOR_DATA ->
  socketEvent i (wxSOCKET_INPUT data) f
  = Ok (with_events [(pin, value msg)] f).
Proof.
  intros [[c [Hc [Hs [Hm [Hh Hcb]]]]] Hev] Hd Hty.
  unfold socketEvent. rewrite Hc.
  cbn [notify onSocketEvent]. rewrite Hs.
  unfold handleIncomingData. rewrite Hd. cbn [bind try_catch].
  unfold dispatch. rewrite Hty, Hh, Hm.
  cbn [Z.eqb SENSOR_DATA PIN_RESPONSE ERROR_STATE Pos.eqb negb andb].
  unfold call_onData. rewrite Hcb, Hev. unfold data_callback.
  cbn [fst snd app negb bind try_catch]. rewrite Hh.
  cbn [negb bind try_catch fst snd].
  rewrite (FrameClaims.set_nth_same _ _ _ Hc).
  destruct f; reflexivity.
Qed.

(** X24.  The two values that signal outcomes are not usable as
    readings.  On a streaming connection a sensor reading of value -1.0
    shows the dialog "Invalid PIN" and a reading of value 1000.0 does
    nothing at all; in both cases no sensor history changes. *)
Theorem sentinel_reading_is_not_recorded (pin : list byte) (i : nat)
  (f : MainFrame.t) (data : list byte) (msg : UnityMessage) (s : Sensor.t) :
  listening pin i f ->
  find (has_pin pin) (m_sensors f) = Some s ->
  deserialize data = Ok msg ->
  type msg = SENSOR_DATA ->
  (value msg = float_neg_one ->
   exists f1,
     socketEvent i (wxSOCKET_INPUT data) f = Ok f1
     /\ processThreadEvent f1 = wxMessageBox "Invalid PIN" f)
  /\ (value msg = float_thousand ->
      exists f1,
        socketEvent i (wxSOCKET_INPUT data) f = Ok f1
        /\ processThreadEvent f1 = f).
Proof.
  intros Hl Hf Hd Hty.
  pose proof (sensor_data_queues_one_event pin i f data msg Hl Hd Hty) as E.
  destruct Hl as [_ Hev].
  split; intros Hv; rewrite Hv in E; eexists; (split; [exact E|]);
    unfold processThreadEvent; cbn [events with_events];
    unfold onSensorUpdate; cbn [fst snd].
  - change (float_eq_const float_neg_one float_neg_one) with true. cbv iota.
    destruct f. cbn in *. now subst.
  - change (float_eq_const float_thousand float_neg_one) with false.
    change (float_eq_const float_thousand float_thousand) with true.
    cbv iota. cbn [m_sensors with_events]. rewrite Hf.
    destruct f. cbn in *. now subst.
Qed.

Lemma listening_frame_streaming : listening pin_1234 0 frame_streaming.
Proof.
  split; [|reflexivity]. exists (ready_client pin_1234). repeat split.
Defined.

Lemma sentinel_reading_is_not_recorded_witness :
  exists f1,
    socketEvent 0 (wxSOCKET_INPUT (serialize (sensor_data float_neg_one)))
      frame_streaming = Ok f1
    /\ processThreadEvent f1 = wxMessageBox "Invalid PIN" frame_streaming.
Proof.
  exact (proj1 (sentinel_reading_is_not_recorded pin_1234 0 frame_streaming
                  (serialize (sensor_data float_neg_one))
                  (sensor_data float_neg_one)
                  (Sensor.setConnected true (Sensor.new pin_1234))
                  listening_frame_streaming eq_refl eq_refl eq_refl) eq_refl).
Defined.

Lemma find_update_first (pin : list byte) (v : float) (l : list Sensor.t)
  (s : Sensor.t) :
  find (has_pin pin) l = Some s ->
  find (has_pin pin) (update_first pin v l) = Some (Sensor.updateValue v s)
  /\ length (update_first pin v l) = length l
  /\ forall s', In s' l -> has_pin pin s' = false ->
                In s' (update_first pin v l).
Proof.
  induction l as [|x l IH]; [discriminate|].
  cbn [find update_first]. destruct (has_pin pin x) eqn:E.
  - intros H. injection H as <-. cbn [find].
    assert (E' : has_pin pin (Sensor.updateValue v x) = true) by exact E.
    rewrite E'. split; [reflexivity|]. split; [reflexivity|].
    intros s' [<-|H] Hs'; [congruence|now right].
  - intros H. destruct (IH H) as [H1 [H2 H3]].
    cbn [find length]. rewrite E. split; [exact H1|]. split; [now rewrite H2|].
    intros s' [<-|H'] Hs'; [now left|right; now apply H3].
Qed.

(** X25.  On a streaming connection a sensor reading that is neither
    -1.0 nor 1000.0 reaches the sensor registered for the connection's
    pin, as one [updateValue]; the sensors of other pins are untouched,
    no dialog is shown, and the chart gets nothing unless recording is
    on. *)
Theorem reading_reaches_its_sensor (pin : list byte) (i : nat)
  (f : MainFrame.t) (data : list byte) (msg : UnityMessage) (s : Sensor.t) :
  listening pin i f ->
  find (has_pin pin) (m_sensors f) = Some s ->
  deserialize data = Ok msg ->
  type msg = SENSOR_DATA ->
  float_eq_const (value msg) float_neg_one = false ->
  float_eq_const (value msg) float_thousand = false ->
  exists f1,
    socketEvent i (wxSOCKET_INPUT data) f = Ok f1
    /\ let f2 := processThreadEvent f1 in
       find (has_pin pin) (m_sensors f2)
       = Some (Sensor.updateValue (value msg) s)
       /\ length (m_sensors f2) = length (m_sensors f)
       /\ (forall s', In s' (m_sensors f) -> has_pin pin s' = false ->
                      In s' (m_sensors f2))
       /\ dialogs f2 = dialogs f
       /\ (m_isRecording f = false -> m_graphPanel f2 = m_graphPanel f).
Proof.
  intros Hl Hf Hd Hty Hn1 Hn2.
  pose proof (sensor_data_queues_one_event pin i f data msg Hl Hd Hty) as E.
  destruct Hl as [_ Hev].
  eexists. split; [exact E|]. cbv zeta.
  unfold processThreadEvent. cbn [events with_events].
  unfold onSensorUpdate. cbn [fst snd]. rewrite Hn1, Hn2.
  rewrite (with_events_nil f _ Hev).
  unfold onSensorData. rewrite Hf. cbv zeta.
  destruct (find_update_first pin (value msg) (m_sensors f) s Hf)
    as [H1 [H2 H3]].
  cbn [m_isRecording with_sensors].
  match goal with
  | |- context [if ?b && m_isRecording f then _ else _] => destruct b
  end; cbn [andb];
    [destruct (m_isRecording f) eqn:Hr|];
    cbn [m_sensors addPoint with_sensors dialogs m_graphPanel];
    repeat split; auto; discriminate.
Qed.

Lemma reading_reaches_its_sensor_witness :
  exists f1,
    socketEvent 0 (wxSOCKET_INPUT (serialize (sensor_data float_five)))
      frame_streaming = Ok f1
    /\ let f2 := processThreadEvent f1 in
       find (has_pin pin_1234) (m_sensors f2)
       = Some (Sensor.updateValue float_five
                 (Sensor.setConnected true (Sensor.new pin_1234)))
       /\ length (m_sensors f2) = 1
       /\ (forall s', In s' (m_sensors frame_streaming) ->
                      has_pin pin_1234 s' = false -> In s' (m_sensors f2))
       /\ dialogs f2 = []
       /\ (false = false -> m_graphPanel f2 = []).
Proof.
  exact (reading_reaches_its_sensor pin_1234 0 frame_streaming
           (serialize (sensor_data float_five)) (sensor_data float_five)
           (Sensor.setConnected true (Sensor.new pin_1234))
           listening_frame_streaming eq_refl eq_refl eq_refl eq_refl eq_refl).
Defined.



End FrameFacts.

(** ** [onConnect] in the running application *)

Module AppFacts.
Import Protocol TCPClient MainFrame ClientClaims.










Section Dispatch.

Variable dispatch : App.Event -> App.State -> result App.State.




End Dispatch.

Lemma handle_Connect (pin : list byte) (flag : bool)
  (rounds : list (list App.Event)) (pin_send : SendEnv) (s : App.State) :
  App.handle (App.Connect pin flag rounds pin_send) s
  = App.onConnect App.handle pin flag rounds pin_send s.
Proof. reflexivity. Qed.




Lemma with_events_same (f : MainFrame.t) : with_events (events f) f = f.
Proof. now destruct f. Qed.

Lemma yield_alone (pending : list wxSocketEvent) (c : Client) (f : MainFrame.t) :
  App.yield App.handle (map (App.Waiting 0) pending) ([c], f)
  = (cw <- TCPClient.yield pending c (events f) ;;
     Ok ([fst cw], with_events (snd cw) f)).
Proof.
  revert c f. induction pending as [|event rest IH]; intros c f.
  - cbn. now rewrite with_events_same.
  - cbn [map App.yield TCPClient.yield App.handle].
    unfold App.waitingEvent. cbn [fst snd nth_error].
    destruct (notify_returns event c (events f)) as [c' [w' E]].
    rewrite E. cbn [bind fst snd set_nth]. rewrite IH. reflexivity.
Qed.

Lemma wait_loop_alone (rs : list (list wxSocketEvent)) (c : Client)
  (f : MainFrame.t) :
  App.wait_loop App.handle (map (map (App.Waiting 0)) rs) ([c], f)
  = (cw <- TCPClient.wait_loop rs c (events f) ;;
     Ok ([fst cw], with_events (snd cw) f)).
Proof.
  revert c f. induction rs as [|pending rest IH]; intros c f;
    cbn [map App.wait_loop TCPClient.wait_loop];
    unfold App.handshakeComplete; cbn [fst].
  - destruct (m_handshakeComplete c); cbn; now rewrite with_events_same.
  - destruct (m_handshakeComplete c);
      [cbn; now rewrite with_events_same|].
    rewrite yield_alone.
    destruct (ClientFacts.yield_returns pending c (events f)) as [c' [w' E]].
    rewrite E. cbn [bind fst snd]. rewrite IH. reflexivity.
Qed.

(** When nothing but the notifications of the new client's socket is
    pending during the wait and no other call is in progress, [onConnect]
    is [MainFrame.onConnect]. *)
Lemma onConnect_alone (pin : list byte) (env : ConnectEnv) (f : MainFrame.t) :
  App.handle
    (App.Connect pin (indeterminate_flag env)
       (map (map (App.Waiting 0)) (rounds env)) (pin_send env))
    ([], f)
  = (f' <- MainFrame.onConnect pin env f ;; Ok ([], f')).
Proof.
  rewrite handle_Connect. unfold App.onConnect, MainFrame.onConnect.
  destruct (bytes_eqb pin []); [reflexivity|].
  destruct (find (has_pin pin) (m_sensors f)); [reflexivity|].
  set (client := setDataCallback _ _).
  destruct (connect client) as [connected client1] eqn:Ec.
  assert (connected = true) as -> by (unfold connect in Ec; now injection Ec).
  unfold App.waitForConnection, TCPClient.waitForConnection. cbn [fst snd].
  rewrite wait_loop_alone.
  destruct (ClientFacts.wait_loop_spec (rounds env)
              (set_m_handshakeComplete false client1) (events f))
    as [c' [w' [E _]]].
  { intros H. discriminate H. }
  rewrite E. cbn [bind fst snd hd tl negb orb].
  unfold App.handshakeComplete. cbn [fst].
  destruct (m_handshakeComplete c'); cbn [negb]; [|reflexivity].
  destruct (sendPinRequest pin (pin_send env) c') as [sent c''].
  destruct sent; reflexivity.
Qed.


(** During the wait of [onConnect] a sensor is registered: the handlers
    the wait dispatches act on the frame. *)
Example sensor_registered_during_wait :
  visible (s <- App.handle authorized_during_wait
                  ([], frame_with_client pin_1234) ;;
           Ok (snd s))
  = Some ([(pin_1234, true)], ["Failed to connect to Unity"%string]).
Proof. vm_compute. reflexivity. Qed.

(** An [onConnect] inside the wait of another: both calls store their
    client, the inner one first, no call is left in progress and no
    dialog is shown. *)
Example both_calls_store_their_client :
  (s <- App.handle connect_during_wait ([], MainFrame.new false) ;;
   Ok (length (fst s),
       map sock_out (m_clients (snd s)),
       dialogs (snd s)))
  = Ok (0,
        [frame_of (connect_message connect_ok)
         ++ frame_of (pin_request pin_1234 (writes_ok pin_1234));
         frame_of (connect_message connect_ok)
         ++ frame_of (pin_request pin_5678 (writes_ok pin_5678))],
        []).
Proof. vm_compute. reflexivity. Qed.


End AppFacts.

(** ** The chart's view window *)

Module GraphFacts.
Import GraphPanel.

Lemma addPoints_app (points : list (float * Z)) (p : float * Z) (g : GraphPanel.t) :
  addPoints (points ++ [p]) g = addPoint (fst p) (snd p) (addPoints points g).
Proof. unfold addPoints. now rewrite fold_left_app. Qed.

Lemma addPoint_view (v : float) (now : Z) (g : GraphPanel.t) :
  m_points (addPoint v now g) = m_points g ++ [mkPoint v now]
  /\ m_autoScrolling (addPoint v now g) = m_autoScrolling g
  /\ m_viewOffset (addPoint v now g)
     = if m_autoScrolling g && (MAX_POINTS <? length (m_points g) + 1)
       then Z.of_nat (length (m_points g) + 1 - MAX_POINTS)
       else m_viewOffset g.
Proof.
  unfold addPoint. rewrite length_app. cbn [length].
  destruct (m_points g); repeat split.
Qed.

Lemma addPoints_clear (points : list (float * Z)) (g : GraphPanel.t) :
  let g' := addPoints points (clear g) in
  length (m_points g') = length points
  /\ m_autoScrolling g' = m_autoScrolling g
  /\ m_viewOffset g'
     = if m_autoScrolling g then Z.of_nat (length points - MAX_POINTS) else 0%Z.
Proof.
  cbv zeta. induction points as [|p points IH] using rev_ind.
  - cbn. destruct (m_autoScrolling g); auto.
  - rewrite addPoints_app. destruct IH as [H1 [H2 H3]].
    destruct (addPoint_view (fst p) (snd p) (addPoints points (clear g)))
      as [E1 [E2 E3]].
    rewrite E1, E2, E3, !length_app, H1, H2, H3. cbn [length].
    split; [reflexivity|]. split; [reflexivity|].
    destruct (m_autoScrolling g); cbn [andb]; [|reflexivity].
    unfold MAX_POINTS.
    destruct (10 <? length points + 1) eqn:E; [reflexivity|].
    apply Nat.ltb_ge in E. f_equal. lia.
Qed.

(** X27.  With auto scrolling on, after the chart is cleared and any
    number of points (fewer than 2^31) is added, the view starts ten
    points before the end, or at the first point when there are at most
    ten: what is drawn are the newest points.  With auto scrolling off,
    which clearing does not change, the view stays at the first point
    however many points are added. *)
Theorem cleared_chart_view (points : list (float * Z)) (g : GraphPanel.t) :
  (Z.of_nat (length points) < 2147483648)%Z ->
  let n := length points in
  let g' := addPoints points (clear g) in
  (m_autoScrolling g = true ->
   drawn g' = (Z.of_nat (n - MAX_POINTS), Z.of_nat n))
  /\ (m_autoScrolling g = false ->
      drawn g' = (0%Z, Z.of_nat (Nat.min MAX_POINTS n))).
Proof.
  intros Hn. cbv zeta.
  destruct (addPoints_clear points g) as [H1 [H2 H3]].
  unfold drawn, size_t. rewrite H1, H3. unfold MAX_POINTS.
  split; intros Ha; rewrite Ha.
  - rewrite !Z.mod_small by lia. f_equal. lia.
  - rewrite !Z.mod_small by lia. f_equal. lia.
Qed.

Lemma cleared_chart_view_witness :
  drawn (addPoints (repeat (float_five, 0%Z) 12) (clear GraphPanel.new))
  = (2%Z, 12%Z).
Proof.
  apply (proj1 (cleared_chart_view (repeat (float_five, 0%Z) 12)
                  GraphPanel.new ltac:(cbn; lia))).
  reflexivity.
Defined.

(** The offset an [int] cannot follow: dragging to the left with the view
    at [INT_MAX] is an overflow. *)
Example drag_at_int_max :
  drag (0, 0)%Z (GraphPanel.mk [] None None (100, 0)%Z (0, 0)%Z INT_MAX true false)
  = Undefined.
Proof. reflexivity. Qed.

(** X28.  Dragging, for a view offset below [INT_MAX] and a pointer
    distance that fits an [int].  A mouse move of at most ten pixels from
    the drag start changes only the mouse position.  A longer one shifts
    the view by one point, left or right, but never before the first
    point, and then auto scrolling is on exactly when the chart has a
    point and its newest point lies in the ten-point view; on a chart
    without points it is switched off. *)
Theorem drag_shifts_view_by_one (pos : Z * Z) (g : GraphPanel.t) :
  (0 <= m_viewOffset g < INT_MAX)%Z ->
  (Z.of_nat (length (m_points g)) < 2147483648)%Z ->
  let dx := (fst pos - fst (m_dragStart g))%Z in
  (Z.abs dx <= INT_MAX)%Z ->
  exists g',
    drag pos g = Ok g'
    /\ m_points g' = m_points g
    /\ (0 <= m_viewOffset g' <= INT_MAX)%Z
    /\ (Z.abs dx <= 10 ->
        m_viewOffset g' = m_viewOffset g
        /\ m_autoScrolling g' = m_autoScrolling g
        /\ m_dragStart g' = m_dragStart g)%Z
    /\ (10 < Z.abs dx ->
        m_viewOffset g'
        = Z.max 0 (m_viewOffset g + (if (0 <? dx)%Z then -1 else 1))
        /\ m_dragStart g' = pos
        /\ (m_autoScrolling g' = true <->
            m_points g <> []
            /\ m_viewOffset g' <= Z.of_nat (length (m_points g)) - 1
               < m_viewOffset g' + 10))%Z.
Proof.
  intros Ho Hn dx Hdx. subst dx. unfold drag.
  set (dx := (fst pos - fst (m_dragStart g))%Z) in *.
  assert (E1 : int_ dx = Ok dx).
  { unfold int_, INT_MIN, INT_MAX in *.
    replace ((-2147483648 <=? dx) && (dx <=? 2147483647))%Z with true;
      [reflexivity|].
    symmetry. apply andb_true_iff. split; apply Z.leb_le; lia. }
  assert (E2 : int_ (Z.abs dx) = Ok (Z.abs dx)).
  { unfold int_, INT_MIN, INT_MAX in *.
    replace ((-2147483648 <=? Z.abs dx) && (Z.abs dx <=? 2147483647))%Z
      with true; [reflexivity|].
    symmetry. apply andb_true_iff. split; apply Z.leb_le; lia. }
  rewrite E1. cbn [bind]. rewrite E2. cbn [bind].
  destruct (10 <? Z.abs dx)%Z eqn:E.
  - apply Z.ltb_lt in E.
    set (step := if (0 <? dx)%Z then (-1)%Z else 1%Z).
    assert (Hstep : (step = -1 \/ step = 1)%Z)
      by (subst step; destruct (0 <? dx)%Z; auto).
    assert (E3 : int_ (m_viewOffset g + step) = Ok (m_viewOffset g + step)%Z).
    { unfold int_, INT_MIN, INT_MAX in *.
      replace ((-2147483648 <=? m_viewOffset g + step)
               && (m_viewOffset g + step <=? 2147483647))%Z with true;
        [reflexivity|].
      symmetry. apply andb_true_iff. split; apply Z.leb_le; lia. }
    rewrite E3. cbn [bind]. eexists. split; [reflexivity|].
    cbn [m_points m_viewOffset m_autoScrolling m_dragStart].
    set (off := Z.max 0 _).
    assert (Hoff : (0 <= off <= 2147483647)%Z)
      by (subst off; unfold INT_MAX in *; lia).
    split; [reflexivity|]. split; [unfold INT_MAX; lia|].
    split; [lia|]. intros _.
    split; [reflexivity|]. split; [reflexivity|].
    unfold size_t, MAX_POINTS.
    rewrite (Z.mod_small off) by lia.
    rewrite (Z.mod_small (off + Z.of_nat 10)) by lia.
    destruct (m_points g) as [|p l].
    + cbn [length]. change ((Z.of_nat 0 - 1) mod 18446744073709551616)%Z
        with 18446744073709551615%Z.
      replace (18446744073709551615 <? off + Z.of_nat 10)%Z with false
        by (symmetry; apply Z.ltb_ge; lia).
      rewrite andb_false_r. split; [discriminate|]. intros [H _]. now elim H.
    + cbn [length] in *. rewrite Z.mod_small by lia.
      rewrite andb_true_iff, Z.leb_le, Z.ltb_lt.
      split; [intros [H1 H2]|intros [_ [H1 H2]]]; repeat split; try lia.
      discriminate.
  - apply Z.ltb_ge in E. eexists. split; [reflexivity|].
    cbn [m_points m_viewOffset m_autoScrolling m_dragStart].
    split; [reflexivity|]. split; [unfold INT_MAX in *; lia|].
    split; [auto|]. lia.
Qed.

Lemma drag_shifts_view_by_one_witness :
  exists g',
    drag (100, 0)%Z (addPoints (repeat (float_five, 0%Z) 12)
                       (clear GraphPanel.new)) = Ok g'
    /\ m_viewOffset g' = Z.max 0 (2 + -1).
Proof.
  destruct (drag_shifts_view_by_one (100, 0)%Z
              (addPoints (repeat (float_five, 0%Z) 12) (clear GraphPanel.new))
              ltac:(cbn; unfold INT_MAX; lia) ltac:(cbn; lia)
              ltac:(cbn; unfold INT_MAX; lia))
    as [g' [E [_ [_ [_ H]]]]].
  exists g'. split; [exact E|].
  apply H. cbn. lia.
Defined.

End GraphFacts.
